(** * The user use case of back-editfolio, embedded in Rocq

    The development follows [src/user/usecase/ucase.go].  The use case is
    written against three injected capabilities (user repository, manager
    repository, token adapter).  They are rendered here as operations of a
    small state-and-trace monad over an explicit [World]: the two tables, the
    scripted outcomes of the storage statements, the scheduling choices of
    the goroutine groups, the random source of the id generator and the
    clock.  Every call on a capability is recorded in the trace, so that
    statements such as "no write is issued" or "the adapter is called once"
    are statements about the trace of a run.

    The timeout installed by [context.WithTimeout] at the entry of every
    operation is real time and is left out: the context [c] of an operation
    is always [Active]; only the context of an [errgroup] can become [Done],
    when a sibling goroutine has failed. *)

From Stdlib Require Import NArith String List Bool Lia.
From stdpp Require Import gmap strings list fin_maps.

Local Open Scope N_scope.

(** ** Errors

    A Go [error] is [option error]: [None] is [nil].  The first three
    constructors are the sentinels of the [domain] package that the use case
    returns; the next four are the errors of the collaborators.  The last
    one marks the places where the Go code dereferences a pointer; the
    guards of the use case keep every run away from it
    ([never_panics]). *)

Inductive error : Type :=
| ItemNotFound
| ItemAlreadyExist
| UserWrongPassword
| Canceled                     (* context.Canceled *)
| ErrInvalidValue              (* gorm: a nil value was handed to the ORM *)
| DbError (code : N)           (* any other failure of a storage statement *)
| AdapterError (code : N)      (* a failure of the token adapter *)
| PanicNilPointer.             (* not an error value: the run-time panic of a
                                  nil pointer dereference *)

#[global] Instance error_eq_dec : EqDecision error.
Proof. solve_decision. Defined.

(** A [context.Context], reduced to whether it is done. *)
Inductive Context : Type := Active | Done.

Definition isDone (ctx : Context) : bool :=
  match ctx with Done => true | Active => false end.

(** ** UUIDs (github.com/google/uuid)

    A UUID is its 128 bits read big-endian, byte 0 first. *)

Module uuid.

Definition Nil : N := 0.

(** [NewRandom]: sixteen random bytes, then
    [uuid[6] = (uuid[6] & 0x0f) | 0x40] (version 4) and
    [uuid[8] = (uuid[8] & 0x3f) | 0x80] (variant 10).  Byte [i] occupies
    the bits [8 * (15 - i)] to [8 * (15 - i) + 7]. *)
Definition byteAt (i : N) (b : N) : N := N.shiftl b (8 * (15 - i)).

Definition stamp (r : N) : N :=
  let r128 := N.land r (N.ones 128) in
  let cleared := N.ldiff (N.ldiff r128 (byteAt 6 0xf0)) (byteAt 8 0xc0) in
  N.lor (N.lor cleared (byteAt 6 0x40)) (byteAt 8 0x80).

End uuid.

(** ** The domain package

    The package [domain] is not among the sources; its entities are
    rendered from the specification (section 3, Data model). *)

Module domain.

(** Modelled from the spec: the roles of the absent [domain] package,
    "role (enum: Customer, Admin, SuperAdmin)", and the zero value of the
    Go type. *)
Inductive UserRole : Type :=
| NoRole                     (* the zero value of the role column *)
| CustomerUserRole
| AdminUserRole
| SuperAdminUserRole.

#[global] Instance UserRole_eq_dec : EqDecision UserRole.
Proof. solve_decision. Defined.

(** Modelled from the spec: the Manager entity of the absent [domain]
    package: associated user id, display name, nickname, username
    mirror. *)
Record Manager : Type := mkManager {
  ManagerId : N;
  Name : string;
  Nickname : string;
  ManagerUsername : string
}.

(** Modelled from the spec: the User entity of the absent [domain]
    package: id, username, credential, role, soft-delete timestamp and
    the optional association to a Manager. *)
Record User : Type := mkUser {
  Id : N;
  Role : UserRole;
  Username : string;
  Password : string;           (* the stored credential, never the plain text *)
  DeletedAt : option N;
  Manager_ : option Manager    (* the [Manager] pointer, nil until loaded *)
}.

#[global] Instance Manager_eq_dec : EqDecision Manager.
Proof. solve_decision. Defined.

#[global] Instance User_eq_dec : EqDecision User.
Proof. solve_decision. Defined.

(** The value of [var entity domain.User]. *)
Definition zeroUser : User :=
  mkUser uuid.Nil NoRole EmptyString EmptyString None None.

(** The value of [var entity domain.Manager]. *)
Definition zeroManager : Manager :=
  mkManager uuid.Nil EmptyString EmptyString EmptyString.

(** The credential is opaque: all the use case relies on is that it can
    be derived from a plain password and compared with one. *)
Class PasswordHasher : Type := {
  hashPassword : string -> string;
  comparePassword : string -> string -> bool
}.

(** Modelled from the spec: the credential scheme of the absent [domain]
    package is "comparable": a credential accepts exactly the password it
    was derived from. *)
Class HasherCorrect (H : PasswordHasher) : Prop :=
  compare_hash : forall p q, comparePassword (hashPassword p) q = true <-> p = q.

Section Entity.
Context {hasher : PasswordHasher}.

(** Modelled from the spec: [User.UpdatePassword] of the absent
    [domain] package overwrites the credential. *)
Definition UpdatePassword (plain : string) (u : User) : User :=
  mkUser (Id u) (Role u) (Username u) (hashPassword plain)
         (DeletedAt u) (Manager_ u).

(** Modelled from the spec: [User.ComparePassword] of the absent
    [domain] package compares a plain password with the credential. *)
Definition ComparePassword (u : User) (plain : string) : bool :=
  comparePassword (Password u) plain.
End Entity.

(** Modelled from the spec: [User.IsAdmin] of the absent [domain] package:
    the user "has the Admin role". *)
Definition IsAdmin (u : User) : bool :=
  bool_decide (Role u = AdminUserRole).

(** Modelled from the spec: [User.IsCustomer] of the absent [domain]
    package: the user "has the Customer role". *)
Definition IsCustomer (u : User) : bool :=
  bool_decide (Role u = CustomerUserRole).

(** Modelled from the spec: [User.IsDeleted] of the absent [domain]
    package: the user is "already soft-deleted". *)
Definition IsDeleted (u : User) : bool :=
  match DeletedAt u with Some _ => true | None => false end.

(** Modelled from the spec: [domain.ExistsAdmin], the helper predicate
    "is admin-like" of the absent [domain] package: the pointer is not nil
    and the role is Admin or above. *)
Definition ExistsAdmin (u : option User) : bool :=
  match u with
  | None => false
  | Some u =>
      bool_decide (Role u = AdminUserRole)
      || bool_decide (Role u = SuperAdminUserRole)
  end.

(** Modelled from the spec: [User.Delete] of the absent [domain] package
    marks the entity soft-deleted, with the time of the call. *)
Definition Delete (now : N) (u : User) : User :=
  mkUser (Id u) (Role u) (Username u) (Password u) (Some now) (Manager_ u).

(** Modelled from the spec: [domain.CreateManager] of the absent [domain]
    package: "an associated Manager(name, nickname, username=email)
    referencing the new user". *)
Definition CreateManager (u : User) (name nickname : string) : Manager :=
  mkManager (Id u) name nickname (Username u).

(** Modelled from the spec: [User.UpdateManagerInfo] of the absent
    [domain] package applies username, name and nickname "to both the User
    and Manager views". *)
Definition UpdateManagerInfo (username name nickname : string) (u : User) : User :=
  mkUser (Id u) (Role u) username (Password u) (DeletedAt u)
         (match Manager_ u with
          | Some m => Some (mkManager (ManagerId m) name nickname username)
          | None => None
          end).

(** A row of the users table has the columns of the entity; the
    association is not a column. *)
Definition userRow (u : User) : User :=
  mkUser (Id u) (Role u) (Username u) (Password u) (DeletedAt u) None.

End domain.

Import domain.

(** ** The world and the monad of the collaborators *)

(** One entry per call on a capability, in the order of the calls.  A save
    is recorded with the error it returned, and so is the commit of a
    transaction. *)
Inductive Call : Type :=
| UserGetById (id : N)
| UserGetByUsername (username : string)
| UserSave (u : User) (err : option error)
| UserTransaction
| UserCommit (err : option error)
| ManagerGetById (id : N)
| ManagerSave (m : option Manager) (err : option error)
| ManagerWith
| TokenGenerate (u : User).

Record World : Type := mkWorld {
  userTable : gmap N User;          (* the users table, by primary key *)
  managerTable : gmap N Manager;    (* the managers table, by primary key *)
  faults : list (option N);         (* outcome of the next storage statements:
                                       [Some code] makes the statement fail *)
  schedule : list bool;             (* which goroutine of a group finishes first *)
  entropy : list N;                 (* the random source of the id generator *)
  clock : N                         (* time.Now() *)
}.

(** A computation reads and updates the world and emits calls. *)
Definition M (A : Type) : Type := World -> A * World * list Call.

Definition ret {A} (a : A) : M A := fun w => (a, w, []).

Definition bind {A B} (m : M A) (f : A -> M B) : M B :=
  fun w =>
    let '(a, w1, t1) := m w in
    let '(b, w2, t2) := f a w1 in
    (b, w2, t1 ++ t2).

Notation "'let*' x ':=' m 'in' k" := (bind m (fun x => k))
  (at level 10, x name, m at level 100, k at level 200, only parsing).
Notation "'let*' ' pat ':=' m 'in' k" :=
  (bind m (fun x => match x with pat => k end))
  (at level 10, pat pattern, m at level 100, k at level 200, only parsing).

(** The three components of a run. *)
Definition resultOf {A} (r : A * World * list Call) : A := fst (fst r).
Definition worldOf {A} (r : A * World * list Call) : World := snd (fst r).
Definition callsOf {A} (r : A * World * list Call) : list Call := snd r.

Definition emit (c : Call) : M unit := fun w => (tt, w, [c]).

Definition getWorld : M World := fun w => (w, w, []).

Definition setTables (us : gmap N User) (ms : gmap N Manager) : M unit :=
  fun w => (tt, mkWorld us ms (faults w) (schedule w) (entropy w) (clock w), []).

(** The outcome scripted for the next storage statement; an exhausted
    script lets every further statement succeed. *)
Definition nextFault (w : World) : option N :=
  match faults w with [] => None | f :: _ => f end.

Definition popFault : M (option N) :=
  fun w =>
    (nextFault w,
     mkWorld (userTable w) (managerTable w) (tl (faults w)) (schedule w)
             (entropy w) (clock w), []).

(** Which goroutine of the next group finishes first: [true] for the one
    started first. *)
Definition nextSchedule (w : World) : bool :=
  match schedule w with [] => true | b :: _ => b end.

Definition popSchedule : M bool :=
  fun w =>
    (nextSchedule w,
     mkWorld (userTable w) (managerTable w) (faults w) (tl (schedule w))
             (entropy w) (clock w), []).

(** The random value the next [uuid.New()] draws. *)
Definition nextEntropy (w : World) : N :=
  match entropy w with [] => 0 | r :: _ => r end.

Definition popEntropy : M N :=
  fun w =>
    (nextEntropy w,
     mkWorld (userTable w) (managerTable w) (faults w) (schedule w)
             (tl (entropy w)) (clock w), []).

Definition timeNow : M N := fun w => (clock w, w, []).

(** [uuid.New()]. *)
Definition uuidNew : M N := let* r := popEntropy in ret (uuid.stamp r).

(** The error, if any, of a storage statement issued under [ctx]: a done
    context fails the statement before it reaches the store. *)
Definition statement (ctx : Context) : M (option error) :=
  if isDone ctx then ret (Some Canceled)
  else
    let* f := popFault in
    ret (match f with Some code => Some (DbError code) | None => None end).

(** ** The user repository

    [Save], [Transaction] and [With] are those of the user repository of
    the sources; its lookups are not among the sources and take the body of
    the lookups in [src/customer/repository/repo.go]. *)

(** The transaction-scoped view handed to the body of a transaction
    ([domain.UserTxRepository]). *)
Record UserTxRepository : Type := {
  txSave : Context -> User -> M (option error)
}.

Module userRepo.

(** [Where("`username` = ?", username).First(&entity)] *)
Definition findByUsername (tbl : gmap N User) (username : string) : option User :=
  List.find (fun u => String.eqb (Username u) username)
            (List.map snd (map_to_list tbl)).

(** Modelled from the spec: [GetByUsername] of the user repository, which
    is not among the sources: "GetByUsername(username) -> Entity|absent,
    error".  The body is that of the lookup of the same name and result
    type in [src/customer/repository/repo.go]: record not found is
    (nil, nil); on any other error the pointer to the zero entity is
    returned together with the error. *)
Definition GetByUsername (ctx : Context) (username : string)
  : M (option User * option error) :=
  let* _ := emit (UserGetByUsername username) in
  let* err := statement ctx in
  match err with
  | Some e => ret (Some zeroUser, Some e)
  | None =>
      let* w := getWorld in
      match findByUsername (userTable w) username with
      | None => ret (None, None)
      | Some u => ret (Some u, None)
      end
  end.

(** Modelled from the spec: [GetById] of the user repository, which is
    not among the sources: "GetById(id) -> Entity|absent, error", with the
    body of [GetById] in [src/customer/repository/repo.go].  The store does
    not filter soft-deleted rows: a deleted user is excluded "by business
    rules (not necessarily by storage)". *)
Definition GetById (ctx : Context) (id : N) : M (option User * option error) :=
  let* _ := emit (UserGetById id) in
  let* err := statement ctx in
  match err with
  | Some e => ret (Some zeroUser, Some e)
  | None =>
      let* w := getWorld in
      match userTable w !! id with
      | None => ret (None, None)
      | Some u => ret (Some u, None)
      end
  end.

(** The code with which the store refuses a row whose key is held
    (duplicate entry). *)
Definition duplicateEntry : N := 1062.

(** The ORM inserts a value whose primary key is the zero value, and
    updates or inserts the others by their primary key.  The insert is
    refused when a row is stored under that key. *)
Definition primaryKeyHeld (tbl : gmap N User) (user : User) : bool :=
  bool_decide (Id user = uuid.Nil) && bool_decide (is_Some (tbl !! uuid.Nil)).

(** Modelled from the spec: "username uniqueness enforced at persistence
    layer": a row stored under another primary key has the username. *)
Definition usernameTaken (tbl : gmap N User) (user : User) : bool :=
  existsb (fun kv => negb (N.eqb (fst kv) (Id user))
                     && String.eqb (Username (snd kv)) (Username user))
          (map_to_list tbl).

(** The store refuses the row. *)
Definition keyConflict (tbl : gmap N User) (user : User) : bool :=
  primaryKeyHeld tbl user || usernameTaken tbl user.

(** [r.db.WithContext(ctx).Save(user).Error]: the row is written under
    its primary key, unless the statement fails or the store refuses the
    row. *)
Definition Save (ctx : Context) (user : User) : M (option error) :=
  let* err := statement ctx in
  let* err :=
    match err with
    | Some e => ret (Some e)
    | None =>
        let* w := getWorld in
        if keyConflict (userTable w) user then ret (Some (DbError duplicateEntry))
        else
          let* _ := setTables (<[Id user := userRow user]> (userTable w))
                              (managerTable w) in
          ret None
    end in
  let* _ := emit (UserSave user err) in
  ret err.

(** [With]: the same operations, on the connection of the transaction. *)
Definition With : UserTxRepository := {| txSave := Save |}.

(** [r.db.WithContext(ctx).Transaction(func(tx) error { return
    fn(&repo{db: tx}) })].  The ORM begins a transaction and returns the
    error of the begin without running the body; the body runs on the
    tables; when the body returns an error the transaction is rolled back
    and the error returned; when it returns nil the transaction is
    committed and the error of the commit is the result, nothing being
    written when the commit fails. *)
Definition Transaction (ctx : Context) (fn : UserTxRepository -> M (option error))
  : M (option error) :=
  let* _ := emit UserTransaction in
  let* beginErr := statement ctx in
  match beginErr with
  | Some e => ret (Some e)
  | None =>
      let* w0 := getWorld in
      let* err := fn With in
      match err with
      | Some e =>
          let* _ := setTables (userTable w0) (managerTable w0) in
          ret (Some e)
      | None =>
          let* commitErr := statement ctx in
          let* _ := emit (UserCommit commitErr) in
          match commitErr with
          | None => ret None
          | Some e =>
              let* _ := setTables (userTable w0) (managerTable w0) in
              ret (Some e)
          end
      end
  end.

End userRepo.

(** ** The manager repository *)

Record ManagerTxRepository : Type := {
  txSaveManager : Context -> option Manager -> M (option error)
}.

Module managerRepo.

(** Modelled from the spec: [GetById] of the manager repository, which
    is not among the sources ("Manager repository mirrors the same
    shape"). *)
Definition GetById (ctx : Context) (id : N) : M (option Manager * option error) :=
  let* _ := emit (ManagerGetById id) in
  let* err := statement ctx in
  match err with
  | Some e => ret (Some zeroManager, Some e)
  | None =>
      let* w := getWorld in
      match managerTable w !! id with
      | None => ret (None, None)
      | Some m => ret (Some m, None)
      end
  end.

(** Modelled from the spec: [Save] of the manager repository, which is
    not among the sources: "Save(Entity) -> error (upsert semantics)".  The
    argument is a pointer; the ORM refuses nil. *)
Definition Save (ctx : Context) (manager : option Manager) : M (option error) :=
  let* err :=
    match manager with
    | None => ret (Some ErrInvalidValue)
    | Some m =>
        let* err := statement ctx in
        match err with
        | Some e => ret (Some e)
        | None =>
            let* w := getWorld in
            let* _ := setTables (userTable w) (<[ManagerId m := m]> (managerTable w)) in
            ret None
        end
    end in
  let* _ := emit (ManagerSave manager err) in
  ret err.

(** Modelled from the spec: [With(tx)] "to join an existing
    transaction". *)
Definition With (ur : UserTxRepository) : M ManagerTxRepository :=
  let* _ := emit ManagerWith in
  ret {| txSaveManager := Save |}.

End managerRepo.

(** ** golang.org/x/sync/errgroup *)

Module errgroup.

(** The error [Wait] returns: the first one recorded. *)
Definition firstError (first second : option error) : option error :=
  match first with
  | Some e => Some e
  | None => second
  end.

(** The context of the group is cancelled by the first goroutine that
    returns an error. *)
Definition after (r : option error) : Context :=
  match r with Some _ => Done | None => Active end.

(** [g, gc := errgroup.WithContext(c); g.Go(f1); g.Go(f2); g.Wait()].
    Each goroutine issues one storage statement, so a run is one of the
    two orders; each goroutine receives the group context [gc] as it is
    when its statement starts. *)
Definition Go2 (f1 f2 : Context -> M (option error)) : M (option error) :=
  let* firstIs1 := popSchedule in
  if firstIs1 : bool then
    let* r1 := f1 Active in
    let* r2 := f2 (after r1) in
    ret (firstError r1 r2)
  else
    let* r2 := f2 Active in
    let* r1 := f1 (after r2) in
    ret (firstError r2 r1).

End errgroup.

(** ** Entity operations that reach a collaborator *)

(** Modelled from the spec: [domain.CreateUser] of the absent [domain]
    package: a User with a new id, the given role and username. *)
Definition CreateUser (role : UserRole) (username : string) : M User :=
  let* id := uuidNew in
  ret (mkUser id role username EmptyString None None).

(** Modelled from the spec: [User.LoadManagerInfo] of the absent [domain]
    package: "load its Manager association" by the id of the user. *)
Definition LoadManagerInfo (ctx : Context) (u : User) : M (User * option error) :=
  let* '(m, err) := managerRepo.GetById ctx (Id u) in
  match err with
  | Some e => ret (u, Some e)
  | None =>
      ret (mkUser (Id u) (Role u) (Username u) (Password u) (DeletedAt u) m, None)
  end.

(** ** The inputs of the use case

    The request structs of [domain], with the fields the use case and the
    handler read and write. *)

Record CreateCustomerUserInput : Type := {
  cu_Name : string; cu_Email : string; cu_Mobile : string
}.

Record UpdateAdminPasswordInput : Type := {
  up_UserId : N; up_OldPassword : string; up_NewPassword : string
}.

Record UpdateAdminInfoInput : Type := {
  ui_UserId : N; ui_Username : string; ui_Name : string; ui_Nickname : string
}.

Record ForceUpdateAdminInfoInput : Type := {
  fu_UserId : N; fu_Username : string; fu_Name : string; fu_Nickname : string;
  fu_Password : string
}.

Record SignInUserInput : Type := {
  si_Username : string; si_Password : string
}.

Record DeleteCustomerUserInput : Type := { du_Id : N }.

Record CreateAdminUserInput : Type := {
  au_Name : string; au_Email : string; au_Password : string; au_Nickname : string
}.

Record DeleteAdminUserInput : Type := { da_Id : N }.

(** The token adapter ([domain.TokenGenerateAdapter]). *)
Class TokenGenerateAdapter : Type := {
  Generate : User -> string * option error
}.

(** ** The use case ([src/user/usecase/ucase.go]) *)

Module usecase.
Section UseCase.

Context {hasher : PasswordHasher} {tokenAdapter : TokenGenerateAdapter}.

(** [u.tokenAdapter.Generate(user)], recorded in the trace. *)
Definition tokenGenerate (u : User) : M (string * option error) :=
  let* _ := emit (TokenGenerate u) in
  ret (Generate u).

(** A method call or field access through a [*domain.User]. *)
Definition through_ (p : option User) (k : User -> M (option error))
  : M (option error) :=
  match p with
  | Some u => k u
  | None => ret (Some PanicNilPointer)
  end.

Definition createUser (role : UserRole) (username password : string) : M User :=
  let* user := CreateUser role username in
  ret (UpdatePassword password user).

Definition CreateCustomerUser (cu : CreateCustomerUserInput) : M (N * option error) :=
  let c := Active in
  let* user := createUser CustomerUserRole (cu_Email cu) (cu_Mobile cu) in
  let* err := userRepo.Transaction c (fun ur => txSave ur c user) in
  let newId := Id user in
  ret (newId, err).

Definition UpdateAdminPassword (up : UpdateAdminPasswordInput) : M (option error) :=
  let c := Active in
  let* '(user, err) := userRepo.GetById c (up_UserId up) in
  if negb (ExistsAdmin user) then ret (Some ItemNotFound)
  else
    through_ user (fun user =>
      if negb (ComparePassword user (up_OldPassword up)) then
        ret (Some UserWrongPassword)
      else
        let user := UpdatePassword (up_NewPassword up) user in
        userRepo.Save c user).

(** The tail shared by [UpdateAdminInfo] and
    [ForceUpdateAdminInfoBySuperAdmin]: the two saves in a group.  The
    user is saved under the context of the group, the manager under the
    context of the operation. *)
Definition saveUserAndManager (c : Context) (user : User) : M (option error) :=
  errgroup.Go2
    (fun gc => userRepo.Save gc user)
    (fun gc => managerRepo.Save c (Manager_ user)).

Definition UpdateAdminInfo (ui : UpdateAdminInfoInput) : M (option error) :=
  let c := Active in
  let* '(exists_, err) := userRepo.GetByUsername c (ui_Username ui) in
  match err with
  | Some e => ret (Some e)
  | None =>
      match
        match exists_ with
        | Some ex =>
            if bool_decide (Id ex = ui_UserId ui) then inl (Some ex)
            else inr ItemAlreadyExist
        | None => inl None
        end
      with
      | inr e => ret (Some e)
      | inl user =>
          let* '(user, err) :=
            match user with
            | None => userRepo.GetById c (ui_UserId ui)
            | Some _ => ret (user, None)
            end in
          match err with
          | Some e => ret (Some e)
          | None =>
              if negb (ExistsAdmin user) then ret (Some ItemNotFound)
              else
                through_ user (fun user =>
                  let* '(user, err) := LoadManagerInfo c user in
                  match err with
                  | Some e => ret (Some e)
                  | None =>
                      let user :=
                        UpdateManagerInfo (ui_Username ui) (ui_Name ui)
                                          (ui_Nickname ui) user in
                      saveUserAndManager c user
                  end)
          end
      end
  end.

Definition ForceUpdateAdminInfoBySuperAdmin (fu : ForceUpdateAdminInfoInput)
  : M (option error) :=
  let c := Active in
  let* '(admin, err) := userRepo.GetByUsername c (fu_Username fu) in
  match err with
  | Some e => ret (Some e)
  | None =>
      match
        match admin with
        | Some ad =>
            if bool_decide (Id ad = fu_UserId fu) then inl (Some ad)
            else inr ItemAlreadyExist
        | None => inl None
        end
      with
      | inr e => ret (Some e)
      | inl user =>
          let* '(user, err) :=
            match user with
            | None => userRepo.GetById c (fu_UserId fu)
            | Some _ => ret (user, None)
            end in
          match err with
          | Some e => ret (Some e)
          | None =>
              if negb (ExistsAdmin user) then ret (Some ItemNotFound)
              else
                through_ user (fun user =>
                  let user := UpdatePassword (fu_Password fu) user in
                  let* '(user, err) := LoadManagerInfo c user in
                  match err with
                  | Some e => ret (Some e)
                  | None =>
                      let user :=
                        UpdateManagerInfo (fu_Username fu) (fu_Name fu)
                                          (fu_Nickname fu) user in
                      saveUserAndManager c user
                  end)
          end
      end
  end.

Definition SignInUser (si : SignInUserInput) : M (string * option error) :=
  let c := Active in
  let* '(user, err) := userRepo.GetByUsername c (si_Username si) in
  match err with
  | Some e => ret (EmptyString, Some e)
  | None =>
      match user with
      | None => ret (EmptyString, Some ItemNotFound)
      | Some user =>
          if ComparePassword user (si_Password si) then tokenGenerate user
          else ret (EmptyString, Some UserWrongPassword)
      end
  end.

Definition DeleteCustomerUser (du : DeleteCustomerUserInput) : M (option error) :=
  let ctx := Active in
  let c := Active in
  let* '(user, err) := userRepo.GetById c (du_Id du) in
  match user with
  | None => ret (Some ItemNotFound)
  | Some user =>
      if negb (IsCustomer user) then ret (Some ItemNotFound)
      else
        let* now := timeNow in
        let user := Delete now user in
        userRepo.Save ctx user
  end.

Definition CreateAdminUser (au : CreateAdminUserInput) : M (N * option error) :=
  let c := Active in
  let* '(email, err) := userRepo.GetByUsername c (au_Email au) in
  match email with
  | Some _ => ret (uuid.Nil, Some ItemAlreadyExist)
  | None =>
      let* user := createUser AdminUserRole (au_Email au) (au_Password au) in
      let manager := CreateManager user (au_Name au) (au_Nickname au) in
      let* err :=
        userRepo.Transaction c (fun ur =>
          let* mr := managerRepo.With ur in
          errgroup.Go2
            (fun gc => txSave ur gc user)
            (fun gc => txSaveManager mr gc (Some manager))) in
      let newId := Id user in
      ret (newId, err)
  end.

Definition DeleteAdminUser (da : DeleteAdminUserInput) : M (option error) :=
  let ctx := Active in
  let c := Active in
  let* '(user, err) := userRepo.GetById c (da_Id da) in
  match user with
  | None => ret (Some ItemNotFound)
  | Some user =>
      if IsDeleted user || negb (IsAdmin user) then ret (Some ItemNotFound)
      else
        let* now := timeNow in
        let user := Delete now user in
        userRepo.Save ctx user
  end.

End UseCase.
End usecase.

Import usecase.

(** * Reading a run *)

(** ** Predicates on the calls of a trace *)

Definition isWrite (c : Call) : bool :=
  match c with
  | UserSave _ _ | ManagerSave _ _ | UserTransaction => true
  | _ => false
  end.

Definition isSave (c : Call) : bool :=
  match c with
  | UserSave _ _ | ManagerSave _ _ => true
  | _ => false
  end.

Definition saveFailed (c : Call) : bool :=
  match c with
  | UserSave _ (Some _) | ManagerSave _ (Some _) => true
  | _ => false
  end.

Definition userSaved (c : Call) : bool :=
  match c with UserSave _ None => true | _ => false end.

Definition managerSaved (c : Call) : bool :=
  match c with ManagerSave _ None => true | _ => false end.

(** The commit of the transaction has returned nil. *)
Definition committed (c : Call) : bool :=
  match c with UserCommit None => true | _ => false end.

Definition isGenerate (c : Call) : bool :=
  match c with TokenGenerate _ => true | _ => false end.

(** Every user handed to [Save] carries the id [id]. *)
Definition savesUserWithId (id : N) (c : Call) : bool :=
  match c with UserSave u _ => N.eqb (Id u) id | _ => true end.

(** No save is issued before the transaction is opened. *)
Fixpoint noSaveBefore (tr : list Call) : bool :=
  match tr with
  | [] => true
  | UserTransaction :: _ => true
  | c :: tr' => negb (isSave c) && noSaveBefore tr'
  end.

(** ** The guards of the operations that look a user up by id

    [UpdateAdminPassword] goes on when [domain.ExistsAdmin(user)];
    [DeleteCustomerUser] when [!(user == nil || !user.IsCustomer())];
    [DeleteAdminUser] when
    [!(user == nil || user.IsDeleted() || !user.IsAdmin())]. *)

Definition adminGuard (user : option User) : bool := ExistsAdmin user.

Definition customerGuard (user : option User) : bool :=
  match user with None => false | Some u => IsCustomer u end.

Definition deleteAdminGuard (user : option User) : bool :=
  match user with
  | None => false
  | Some u => negb (IsDeleted u || negb (IsAdmin u))
  end.

(** ** The password update of section 8 of the specification, to the letter

    After [UpdateAdminPassword] with the right old password, the stored
    user accepts the new password and rejects the old one, whatever the two
    passwords are and whatever the store answers to the save. *)

Definition passwordUpdateToTheLetter {hasher : PasswordHasher}
           (up : UpdateAdminPasswordInput) (w : World) : Prop :=
  forall u,
    fst (resultOf (userRepo.GetById Active (up_UserId up) w)) = Some u ->
    ExistsAdmin (Some u) = true ->
    ComparePassword u (up_OldPassword up) = true ->
    exists u',
      userTable (worldOf (UpdateAdminPassword up w)) !! up_UserId up = Some u' /\
      ComparePassword u' (up_NewPassword up) = true /\
      ComparePassword u' (up_OldPassword up) = false.

(** ** A small installation, to run the operations on *)

Module sample.

Local Open Scope string_scope.

(** A credential scheme that can be run: the credential is the password
    behind a marker. *)
#[export] Instance markerHasher : PasswordHasher := {|
  hashPassword p := "#" ++ p;
  comparePassword h p := String.eqb h ("#" ++ p)
|}.

(** An adapter that refuses one account and signs the others. *)
#[export] Instance signingAdapter : TokenGenerateAdapter := {|
  Generate u :=
    if String.eqb (Username u) "locked@b.com"
    then (EmptyString, Some (AdapterError 1))
    else ("token:" ++ Username u, None)
|}.

Definition admin1 : User :=
  mkUser 1 AdminUserRole "admin@b.com" (hashPassword "pw") None None.

Definition manager1 : Manager := mkManager 1 "Kim" "K" "admin@b.com".

Definition locked2 : User :=
  mkUser 2 SuperAdminUserRole "locked@b.com" (hashPassword "root") None None.

Definition manager2 : Manager := mkManager 2 "Lee" "L" "locked@b.com".

Definition customer7 : User :=
  mkUser 7 CustomerUserRole "c@b.com" (hashPassword "01012345678") None None.

Definition users : gmap N User :=
  <[1 := admin1]> (<[2 := locked2]> (<[7 := customer7]> ∅)).

Definition managers : gmap N Manager :=
  <[1 := manager1]> (<[2 := manager2]> ∅).

(** The installation, with the outcomes [fs] scripted for the storage
    statements and the schedule [sch] for the groups. *)
Definition world (fs : list (option N)) (sch : list bool) : World :=
  mkWorld users managers fs sch [5; 6] 100.

Definition kim : CreateAdminUserInput :=
  Build_CreateAdminUserInput "Kim" "a@b.com" "Pw1!" "K".

Definition again : CreateAdminUserInput :=
  Build_CreateAdminUserInput "Kim" "admin@b.com" "Pw1!" "K".

Definition newCustomer : CreateCustomerUserInput :=
  Build_CreateCustomerUserInput "ljs" "example@example.com" "01012345678".

End sample.

(** * More of the sources *)

(** ** The lookup of a user with its manager ([loadManager])

    [loadManager] starts two lookups in a group and waits for both; its
    goroutines leave what they found in variables of the caller. *)

(** The context a goroutine of a group under [ctx] sees once [r] has been
    returned by its sibling. *)
Definition derive (ctx : Context) (r : option error) : Context :=
  if isDone ctx then Done else errgroup.after r.

(** [g, c := errgroup.WithContext(ctx); g.Go(f1); g.Go(f2); g.Wait()] for
    two goroutines that each issue one storage statement and assign its
    value to a captured variable. *)
Definition Go2Values {A B}
           (ctx : Context)
           (f1 : Context -> M (A * option error))
           (f2 : Context -> M (B * option error)) : M (A * B * option error) :=
  let* firstIs1 := popSchedule in
  if firstIs1 : bool then
    let* '(a, e1) := f1 ctx in
    let* '(b, e2) := f2 (derive ctx e1) in
    ret (a, b, errgroup.firstError e1 e2)
  else
    let* '(b, e2) := f2 ctx in
    let* '(a, e1) := f1 (derive ctx e2) in
    ret (a, b, errgroup.firstError e2 e1).

(** [loadManager], [src/user/usecase/ucase.go].  [user.Manager = manager]
    goes through the pointer the lookup has returned. *)
Definition loadManager (ctx : Context) (userId : N) : M (option User * option error) :=
  let* '(user, manager, err) :=
    Go2Values ctx
      (fun c => userRepo.GetById c userId)
      (fun c => managerRepo.GetById c userId) in
  match err with
  | Some e => ret (None, Some e)
  | None =>
      match user with
      | None => ret (None, Some PanicNilPointer)
      | Some user =>
          ret (Some (mkUser (Id user) (Role user) (Username user) (Password user)
                            (DeletedAt user) manager), None)
      end
  end.

(** ** The HTTP handlers ([src/user/handler/http.go])

    A handler binds the request, calls the use case and answers by the
    error it gets back.  Binding is the framework's: a handler receives
    either the error of [ctx.Bind] or the bound request.  The answer is the
    status and the body handed to [ctx.JSON] or [ctx.NoContent]; a handler
    that panics gives no answer. *)

Module handler.

(** The bodies a handler answers with.  The response values of [domain]
    are kept as they are named. *)
Inductive Body : Type :=
| ErrorResponse (message : string)          (* domain.ErrorResponse{Message: ...} *)
| ServerInternalErrorResponse               (* domain.ServerInternalErrorResponse *)
| ItemExist                                 (* domain.ItemExist *)
| UserWrongPasswordToUpdatePassword         (* domain.UserWrongPasswordToUpdatePassword *)
| CreatedCustomerResp (id : N)              (* CreatedCustomerResp{Id: newId} *)
| NoBody.                                   (* ctx.NoContent *)

Inductive Reply : Type :=
| Respond (status : N) (body : Body)
| Panic.

Definition StatusCreated : N := 201.
Definition StatusNoContent : N := 204.
Definition StatusBadRequest : N := 400.
Definition StatusUnauthorized : N := 401.
Definition StatusNotFound : N := 404.
Definition StatusConflict : N := 409.
Definition StatusInternalServerError : N := 500.

(** The outcome of [ctx.Bind(&req)]: the text of its error, or the
    request as bound. *)
Inductive Bound (A : Type) : Type :=
| BindFailed (message : string)
| BoundTo (req : A).

Arguments BindFailed {A} message.
Arguments BoundTo {A} req.

Record CreateCustomerRequest : Type := {
  ccr_Name : string; ccr_Email : string; ccr_Mobile : string
}.

Record UpdatePasswordRequest : Type := {
  upr_UserId : string; upr_OldPassword : string; upr_NewPassword : string
}.

Record CreateAdminRequest : Type := {
  car_Name : string; car_Email : string; car_Password : string;
  car_Nickname : string
}.

Record DeleteCustomerRequest : Type := { dcr_Id : N }.

Record DeleteAdminRequest : Type := { dar_Id : N }.

(** [err.Error()]: the text of an error value. *)
Class ErrorText : Type := { errorText : error -> string }.

(** [uuid.Parse]: the id a text stands for, if it is one; [uuid.MustParse]
    panics on the others. *)
Class UuidParser : Type := { uuidParse : string -> option N }.

Section Handler.

Context {hasher : PasswordHasher} {texts : ErrorText} {parser : UuidParser}.

Definition createCustomer (bound : Bound CreateCustomerRequest) : M Reply :=
  match bound with
  | BindFailed message => ret (Respond StatusBadRequest (ErrorResponse message))
  | BoundTo req =>
      let* '(newId, err) :=
        CreateCustomerUser
          (Build_CreateCustomerUserInput (ccr_Name req) (ccr_Email req) (ccr_Mobile req)) in
      match err with
      | None => ret (Respond StatusCreated (CreatedCustomerResp newId))
      | Some _ => ret (Respond StatusInternalServerError ServerInternalErrorResponse)
      end
  end.

(** In the [nil] case the body is built from [err.Error()], a method call
    on the nil error: the handler panics before it answers. *)
Definition deleteCustomerUser (bound : Bound DeleteCustomerRequest) : M Reply :=
  match bound with
  | BindFailed message => ret (Respond StatusBadRequest (ErrorResponse message))
  | BoundTo req =>
      let* err := DeleteCustomerUser (Build_DeleteCustomerUserInput (dcr_Id req)) in
      match err with
      | None => ret Panic
      | Some ItemNotFound =>
          ret (Respond StatusNotFound (ErrorResponse (errorText ItemNotFound)))
      | Some _ => ret (Respond StatusInternalServerError ServerInternalErrorResponse)
      end
  end.

Definition updateAdminPassword (bound : Bound UpdatePasswordRequest) : M Reply :=
  match bound with
  | BindFailed message => ret (Respond StatusBadRequest (ErrorResponse message))
  | BoundTo req =>
      match uuidParse (upr_UserId req) with
      | None => ret Panic
      | Some userId =>
          let* err :=
            UpdateAdminPassword
              (Build_UpdateAdminPasswordInput userId (upr_OldPassword req)
                                              (upr_NewPassword req)) in
          match err with
          | None => ret (Respond StatusNoContent NoBody)
          | Some UserWrongPassword =>
              ret (Respond StatusUnauthorized UserWrongPasswordToUpdatePassword)
          | Some ItemNotFound =>
              ret (Respond StatusUnauthorized (ErrorResponse (errorText ItemNotFound)))
          | Some _ =>
              ret (Respond StatusInternalServerError ServerInternalErrorResponse)
          end
      end
  end.

Definition createAdmin (bound : Bound CreateAdminRequest) : M Reply :=
  match bound with
  | BindFailed message => ret (Respond StatusBadRequest (ErrorResponse message))
  | BoundTo req =>
      let* '(newId, err) :=
        CreateAdminUser
          (Build_CreateAdminUserInput (car_Name req) (car_Email req)
                                      (car_Password req) (car_Nickname req)) in
      match err with
      | None => ret (Respond StatusCreated (CreatedCustomerResp newId))
      | Some ItemAlreadyExist => ret (Respond StatusConflict ItemExist)
      | Some _ => ret (Respond StatusInternalServerError ServerInternalErrorResponse)
      end
  end.

(** As in [deleteCustomerUser], the [nil] case calls [err.Error()]. *)
Definition deleteAdminUser (bound : Bound DeleteAdminRequest) : M Reply :=
  match bound with
  | BindFailed message => ret (Respond StatusBadRequest (ErrorResponse message))
  | BoundTo req =>
      let* err := DeleteAdminUser (Build_DeleteAdminUserInput (dar_Id req)) in
      match err with
      | None => ret Panic
      | Some ItemNotFound =>
          ret (Respond StatusNotFound (ErrorResponse (errorText ItemNotFound)))
      | Some _ => ret (Respond StatusInternalServerError ServerInternalErrorResponse)
      end
  end.

End Handler.

(** The status of a reply, if the handler answered. *)
Definition statusOf (r : Reply) : option N :=
  match r with Respond status _ => Some status | Panic => None end.

End handler.

(** ** Worlds the properties speak about *)


(** No row of the table has the username. *)
Definition usernameFree (tbl : gmap N User) (username : string) : Prop :=
  forall id u, tbl !! id = Some u -> Username u <> username.

(** All the rows with the username are stored under [id]. *)
Definition usernameOnlyAt (tbl : gmap N User) (username : string) (id : N) : Prop :=
  forall id' u, tbl !! id' = Some u -> Username u = username -> id' = id.

Definition isNoFault (f : option N) : bool :=
  match f with None => true | Some _ => false end.

(** Every storage statement still scripted succeeds. *)
Definition storeWorks (w : World) : bool := forallb isNoFault (faults w).

Definition isLookup (c : Call) : bool :=
  match c with
  | UserGetById _ | UserGetByUsername _ | ManagerGetById _ => true
  | _ => false
  end.

(** ** More of the sample installation *)

Module sampleHandler.

Local Open Scope string_scope.

(** The texts of the errors, one per error value. *)
#[export] Instance sampleTexts : handler.ErrorText := {|
  handler.errorText e :=
    match e with
    | ItemNotFound => "item not found"
    | ItemAlreadyExist => "item already exist"
    | UserWrongPassword => "wrong password"
    | Canceled => "context canceled"
    | ErrInvalidValue => "invalid value"
    | DbError _ => "storage error"
    | AdapterError _ => "adapter error"
    | PanicNilPointer => "nil pointer dereference"
    end
|}.

(** A parser that knows the ids of the sample installation by the name of
    one digit. *)
#[export] Instance sampleParser : handler.UuidParser := {|
  handler.uuidParse s :=
    if String.eqb s "1" then Some 1
    else if String.eqb s "2" then Some 2
    else if String.eqb s "7" then Some 7
    else if String.eqb s "9" then Some 9
    else None
|}.

End sampleHandler.

(** * Properties *)

(** ** Running an operation symbolically

    [run] unfolds the operations down to the primitives of the monad;
    [crunch] then follows the run in the order of its steps, splitting on
    what the step at hand is waiting for (the scripted outcome of a
    statement, the answer of a lookup, a guard). *)

Ltac run :=
  cbv [bind ret emit getWorld setTables popFault popSchedule popEntropy
       timeNow uuidNew statement resultOf worldOf callsOf
       userRepo.GetByUsername userRepo.GetById userRepo.Save
       userRepo.With userRepo.Transaction managerRepo.GetById managerRepo.Save
       managerRepo.With errgroup.Go2 errgroup.firstError errgroup.after
       CreateUser LoadManagerInfo
       tokenGenerate through_ createUser CreateCustomerUser
       UpdateAdminPassword saveUserAndManager UpdateAdminInfo
       ForceUpdateAdminInfoBySuperAdmin SignInUser DeleteCustomerUser
       CreateAdminUser DeleteAdminUser
       isDone txSave txSaveManager fst snd app] in *;
  cbn [userTable managerTable faults schedule entropy clock] in *.

Ltac stuck_on t :=
  lazymatch t with
  | match ?x with _ => _ end => stuck_on x
  | (match ?x with _ => _ end) _ => stuck_on x
  | negb ?x => stuck_on x
  | orb ?x _ => stuck_on x
  | andb ?x _ => stuck_on x
  | _ => t
  end.

Ltac step :=
  match goal with
  | |- context [match ?x with _ => _ end] =>
      let y := stuck_on x in destruct y eqn:?
  end;
  simplify_eq;
  cbv beta iota zeta delta [fst snd app negb orb andb] in *;
  cbn [userTable managerTable faults schedule entropy clock] in *.

Ltac crunch := repeat step.

Ltac finish :=
  repeat match goal with
         | |- _ /\ _ => split
         | |- _ -> _ => intro
         | |- _ <-> _ => split
         | |- forall _, _ => intro
         end;
  repeat match goal with
         | H : bool_decide _ = true |- _ => apply bool_decide_eq_true in H
         | H : bool_decide _ = false |- _ => apply bool_decide_eq_false in H
         | H : exists _, _ |- _ => destruct H
         | H : _ /\ _ |- _ => destruct H
         end;
  simplify_eq;
  cbn [existsb forallb List.filter isWrite isSave saveFailed userSaved
       managerSaved committed isGenerate savesUserWithId noSaveBefore orb andb negb
       Id Username UpdatePassword] in *;
  rewrite ?N.eqb_refl;
  try first [reflexivity | discriminate | congruence | tauto | eauto].

(** ** The id generator *)

Lemma stamp_testbit_63 (r : N) : N.testbit (uuid.stamp r) 63 = true.
Proof.
  unfold uuid.stamp. rewrite N.lor_spec.
  replace (N.testbit (uuid.byteAt 8 128) 63) with true by (vm_compute; reflexivity).
  apply orb_true_r.
Qed.

Lemma stamp_not_Nil (r : N) : uuid.stamp r <> uuid.Nil.
Proof.
  intros H. pose proof (stamp_testbit_63 r) as Hb.
  rewrite H in Hb. discriminate Hb.
Qed.

(** The version nibble of a generated id is 4. *)
Lemma stamp_version (r : N) :
  N.land (N.shiftr (uuid.stamp r) 76) 15 = 4.
Proof.
  apply N.bits_inj. intros i.
  rewrite N.land_spec, N.shiftr_spec by lia.
  unfold uuid.stamp.
  rewrite !N.lor_spec, !N.ldiff_spec, N.land_spec.
  destruct (N.lt_ge_cases i 4) as [Hlt | Hge].
  - assert (Hcases : i = 0 \/ i = 1 \/ i = 2 \/ i = 3) by lia.
    destruct Hcases as [-> | [-> | [-> | ->]]]; vm_compute N.add;
      repeat match goal with
             | |- context [N.testbit (uuid.byteAt ?a ?b) ?n] =>
                 let v := eval vm_compute in (N.testbit (uuid.byteAt a b) n) in
                 change (N.testbit (uuid.byteAt a b) n) with v
             end;
      cbn [N.testbit negb]; rewrite ?andb_false_r, ?orb_false_r, ?orb_true_r;
      reflexivity.
  - replace (N.testbit 15 i) with false; [rewrite andb_false_r|].
    + symmetry. change 4 with (2 ^ 2). rewrite N.pow2_bits_eqb.
      apply N.eqb_neq. lia.
    + symmetry. apply N.bits_above_log2. change (N.log2 15) with 3. lia.
Qed.

(** ** Lookups by username *)

Lemma findByUsername_Some tbl username u :
  userRepo.findByUsername tbl username = Some u ->
  Username u = username /\ exists id, tbl !! id = Some u.
Proof.
  unfold userRepo.findByUsername. intros H.
  apply find_some in H as [Hin Heq].
  apply String.eqb_eq in Heq. split; [exact Heq|].
  apply in_map_iff in Hin as [[id u'] [Hsnd Hin]]. simpl in Hsnd. subst u'.
  exists id. apply elem_of_map_to_list. apply list_elem_of_In. exact Hin.
Qed.

Lemma findByUsername_is_Some tbl id u :
  tbl !! id = Some u ->
  is_Some (userRepo.findByUsername tbl (Username u)).
Proof.
  intros Hu. unfold userRepo.findByUsername.
  destruct (find _ _) as [u'|] eqn:Hfind; [eauto|].
  exfalso.
  assert (Hin : In u (List.map snd (map_to_list tbl))).
  { apply in_map_iff. exists (id, u). split; [reflexivity|].
    apply list_elem_of_In, elem_of_map_to_list. exact Hu. }
  pose proof (find_none _ _ Hfind _ Hin) as Hneq. simpl in Hneq.
  rewrite String.eqb_refl in Hneq. discriminate.
Qed.

Lemma findByUsername_None tbl username :
  (forall id u, tbl !! id = Some u -> Username u <> username) ->
  userRepo.findByUsername tbl username = None.
Proof.
  intros Hfree.
  destruct (userRepo.findByUsername tbl username) as [u|] eqn:Hfind; [|reflexivity].
  apply findByUsername_Some in Hfind as [Hname [id Hid]].
  destruct (Hfree id u Hid Hname).
Qed.

(** ** What the lookups answer *)

Lemma GetByUsername_answer username w :
  resultOf (userRepo.GetByUsername Active username w) =
  match nextFault w with
  | Some code => (Some zeroUser, Some (DbError code))
  | None => (userRepo.findByUsername (userTable w) username, None)
  end.
Proof. run. crunch; reflexivity. Qed.


(** A lookup leaves the tables as they are. *)
Lemma GetById_tables id w :
  userTable (worldOf (userRepo.GetById Active id w)) = userTable w /\
  managerTable (worldOf (userRepo.GetById Active id w)) = managerTable w.
Proof. run. crunch; split; reflexivity. Qed.

(** ** The group of two goroutines *)

(** [Wait] returns nil exactly when both goroutines returned nil. *)
Lemma firstError_None r1 r2 :
  errgroup.firstError r1 r2 = None <-> r1 = None /\ r2 = None.
Proof. destruct r1, r2; cbn; intuition congruence. Qed.

(** Whatever the schedule, the two saves of an update return nil together
    or the group returns an error. *)
Lemma saveUserAndManager_result user w :
  let r := saveUserAndManager Active user w in
  resultOf r = None <->
  existsb userSaved (callsOf r) && existsb managerSaved (callsOf r) = true.
Proof. run. crunch; finish. Qed.

(** ** Running the other operations *)

Ltac run_more :=
  cbv [loadManager Go2Values derive
       handler.createCustomer handler.deleteCustomerUser
       handler.updateAdminPassword handler.createAdmin handler.deleteAdminUser
       handler.statusOf] in *;
  run.

(** The scripted outcomes are followed through the script itself: the
    script is split when a statement reads it, and a script all of whose
    outcomes are successes only yields successes. *)
Ltac tidy :=
  cbv beta iota zeta delta [fst snd app negb orb andb] in *;
  cbn [userTable managerTable faults schedule entropy clock tl forallb] in *.

Ltac open_faults :=
  cbv [nextFault storeWorks] in *;
  tidy;
  repeat match goal with
         | H : isNoFault ?f && _ = true |- _ =>
             let Hf := fresh in
             apply andb_true_iff in H as [Hf H];
             destruct f; [discriminate Hf | clear Hf]
         end;
  tidy.

(** A step whose outcome a hypothesis tells. *)
Ltac known :=
  match goal with
  | |- context [match ?x with _ => _ end] =>
      let y := stuck_on x in
      match goal with
      | H : y = _ |- _ => rewrite H
      end
  end;
  tidy.

Ltac follow := repeat (open_faults; first [known | step]); open_faults.

(** The leaves of a run: the statement is split, what a hypothesis
    contradicts is dropped, what is left is computed. *)
Ltac leaf :=
  repeat match goal with
         | |- _ /\ _ => split
         | |- _ -> _ => intro
         | |- forall _, _ => intro
         | |- _ <-> _ => split
         end;
  repeat match goal with
         | H : _ \/ _ |- _ => destruct H
         | H : _ /\ _ |- _ => destruct H
         | H : exists _, _ |- _ => destruct H
         | H : bool_decide _ = true |- _ => apply bool_decide_eq_true in H
         | H : bool_decide _ = false |- _ => apply bool_decide_eq_false in H
         end;
  simplify_eq;
  cbn [existsb forallb List.filter List.length isLookup isWrite isSave saveFailed
       userSaved managerSaved committed isGenerate savesUserWithId noSaveBefore
       orb andb negb
       handler.statusOf userTable managerTable faults schedule entropy clock
       Id Role Username Password DeletedAt Manager_ ManagerId Name Nickname
       ManagerUsername] in *;
  try first [reflexivity | discriminate | contradiction | assumption | congruence].

(** [exec t] names the result, the world and the trace of the run [t]
    and follows the run once, for all the places of the statement that
    speak about it. *)
Ltac exec t :=
  cbv zeta;
  let Hrun := fresh "Hrun" in
  destruct t as [[? ?] ?] eqn:Hrun;
  revert Hrun; run_more.

Ltac landed := let H := fresh "Hrun" in intro H; simplify_eq.


Ltac close :=
  finish;
  cbn [existsb forallb List.filter isLookup isWrite isSave isGenerate orb andb negb
       handler.statusOf] in *;
  try first [reflexivity | discriminate | congruence | tauto | eauto].

Lemma nextFault_storeWorks (w : World) : storeWorks w = true -> nextFault w = None.
Proof.
  unfold storeWorks, nextFault. destruct (faults w) as [|[c|] fs]; cbn;
    [reflexivity | discriminate | reflexivity].
Qed.

(** ** Tables *)

(** The row the lookup by username finds once a row with a username
    nobody else has is stored. *)
Lemma findByUsername_insert_fresh tbl id row :
  usernameOnlyAt tbl (Username row) id ->
  userRepo.findByUsername (<[id := row]> tbl) (Username row) = Some row.
Proof.
  intros Honly.
  destruct (findByUsername_is_Some (<[id := row]> tbl) id row) as [found Hfound];
    [apply lookup_insert_eq|].
  rewrite Hfound. f_equal.
  apply findByUsername_Some in Hfound as [Hname [id' Hid']].
  rewrite lookup_insert in Hid'. case_decide; [congruence|].
  exfalso. apply H. symmetry. by apply (Honly id' found).
Qed.

Lemma usernameFree_onlyAt tbl username id :
  usernameFree tbl username -> usernameOnlyAt tbl username id.
Proof. intros Hfree id' u Hu Hname. destruct (Hfree id' u Hu Hname). Qed.

(** On a keyed table with a username held at one id only, the lookup by
    username finds the row of that id. *)
Lemma findByUsername_only tbl id u :
  tbl !! id = Some u ->
  usernameOnlyAt tbl (Username u) id ->
  userRepo.findByUsername tbl (Username u) = Some u.
Proof.
  intros Hu Honly.
  destruct (findByUsername_is_Some tbl id u Hu) as [found Hfound].
  rewrite Hfound. f_equal.
  apply findByUsername_Some in Hfound as [Hname [id' Hid']].
  assert (id' = id) by (by apply (Honly id' found)). congruence.
Qed.

(** ** The keys of the users table *)

(** The unique index refuses a row exactly when a row under another
    primary key has its username. *)
Lemma usernameTaken_true tbl user :
  userRepo.usernameTaken tbl user = true <->
  exists k row, tbl !! k = Some row /\ k <> Id user /\ Username row = Username user.
Proof.
  unfold userRepo.usernameTaken. rewrite existsb_exists. split.
  - intros [[k row] [Hin Hb]]. apply andb_true_iff in Hb as [Hk Hn].
    exists k, row. cbn [fst snd] in *.
    split; [by apply elem_of_map_to_list, list_elem_of_In|].
    split; [|by apply String.eqb_eq].
    apply negb_true_iff, N.eqb_neq in Hk. exact Hk.
  - intros (k & row & Hrow & Hk & Hn). exists (k, row). cbn [fst snd].
    split; [by apply list_elem_of_In, elem_of_map_to_list|].
    apply andb_true_iff. split; [by apply negb_true_iff, N.eqb_neq | by apply String.eqb_eq].
Qed.

(** It lets a row pass exactly when all the rows with its username are
    stored under its primary key. *)
Lemma usernameTaken_false tbl user :
  userRepo.usernameTaken tbl user = false <->
  usernameOnlyAt tbl (Username user) (Id user).
Proof.
  rewrite <- not_true_iff_false, usernameTaken_true. unfold usernameOnlyAt. split.
  - intros Hno k row Hrow Hn. destruct (decide (k = Id user)) as [|Hk]; [done|].
    destruct Hno. by exists k, row.
  - intros Honly (k & row & Hrow & Hk & Hn). by apply Hk, (Honly k row).
Qed.

(** A row whose primary key is not the zero value is refused by the
    unique index only. *)
Lemma keyConflict_false tbl user :
  Id user <> uuid.Nil ->
  userRepo.keyConflict tbl user = false <-> usernameOnlyAt tbl (Username user) (Id user).
Proof.
  intros Hid. unfold userRepo.keyConflict, userRepo.primaryKeyHeld.
  rewrite (bool_decide_eq_false_2 _ Hid). cbn [andb orb]. apply usernameTaken_false.
Qed.

(** A row is refused when a row under another primary key has its
    username. *)
Lemma keyConflict_taken tbl user k row :
  tbl !! k = Some row -> k <> Id user -> Username row = Username user ->
  userRepo.keyConflict tbl user = true.
Proof.
  intros Hrow Hk Hn. unfold userRepo.keyConflict.
  apply orb_true_iff. right. apply usernameTaken_true. by exists k, row.
Qed.

Section Properties.

Context {hasher : PasswordHasher} {tokenAdapter : TokenGenerateAdapter}.

(** The guards keep the operations away from a nil dereference. *)
Lemma never_panics :
  (forall up w, resultOf (UpdateAdminPassword up w) <> Some PanicNilPointer) /\
  (forall ui w, resultOf (UpdateAdminInfo ui w) <> Some PanicNilPointer) /\
  (forall fu w,
      resultOf (ForceUpdateAdminInfoBySuperAdmin fu w) <> Some PanicNilPointer).
Proof. repeat split; intros ? ?; run; crunch; finish. Qed.

(** The world after [CreateAdminUser] on a store that works, for an email
    no row has. *)
Lemma CreateAdminUser_works (au : CreateAdminUserInput) (w : World) :
  storeWorks w = true ->
  usernameFree (userTable w) (au_Email au) ->
  let r := CreateAdminUser au w in
  snd (resultOf r) = None /\
  storeWorks (worldOf r) = true /\
  userTable (worldOf r) =
    <[fst (resultOf r) :=
        mkUser (fst (resultOf r)) AdminUserRole (au_Email au)
               (hashPassword (au_Password au)) None None]> (userTable w) /\
  managerTable (worldOf r) =
    <[fst (resultOf r) :=
        mkManager (fst (resultOf r)) (au_Name au) (au_Nickname au) (au_Email au)]>
      (managerTable w).
Proof.
  intros Hw Hfree.
  pose proof (proj2 (keyConflict_false (userTable w)
                       (UpdatePassword (au_Password au)
                          (mkUser (uuid.stamp (nextEntropy w)) AdminUserRole (au_Email au)
                                  EmptyString None None))
                       (stamp_not_Nil _))
                    (usernameFree_onlyAt _ _ _ Hfree)) as Hkey.
  apply findByUsername_None in Hfree.
  exec (CreateAdminUser au w). cbv [nextEntropy UpdatePassword] in *. tidy.
  follow; landed; repeat split; try reflexivity; try assumption.
Qed.


(** C2.  When the email is the username of a user of the table,
    [CreateAdminUser] returns [ItemAlreadyExist]; the only call of the run
    is the lookup by username: no Save and no Transaction is invoked, and
    the tables are as they were.  This holds whatever the store answers to
    the lookup. *)
Theorem CreateAdminUser_duplicate_email
        (au : CreateAdminUserInput) (w : World) (id : N) (u : User) :
  userTable w !! id = Some u ->
  Username u = au_Email au ->
  let r := CreateAdminUser au w in
  snd (resultOf r) = Some ItemAlreadyExist /\
  callsOf r = [UserGetByUsername (au_Email au)] /\
  existsb isWrite (callsOf r) = false /\
  userTable (worldOf r) = userTable w /\
  managerTable (worldOf r) = managerTable w.
Proof.
  intros Hu Hname.
  destruct (findByUsername_is_Some _ _ _ Hu) as [u' Hfind].
  rewrite Hname in Hfind. revert Hfind.
  run. crunch; finish.
Qed.

(** C3.  [SignInUser], by the answer of the lookup by username: no user,
    [ItemNotFound] and no call of the token adapter; a user whose
    credential rejects the password, [UserWrongPassword] and no call of
    the adapter; a user whose credential accepts it, exactly one call of
    the adapter, on that user, whose token and error are returned as they
    are.  In particular, when the store answers the lookup and no row of
    the users table has the username, the result is [ItemNotFound]. *)
Theorem SignInUser_cases (si : SignInUserInput) (w : World) :
  let r := SignInUser si w in
  let answer := resultOf (userRepo.GetByUsername Active (si_Username si) w) in
  (answer = (None, None) ->
   resultOf r = (EmptyString, Some ItemNotFound) /\
   List.filter isGenerate (callsOf r) = []) /\
  (forall u, answer = (Some u, None) ->
             ComparePassword u (si_Password si) = false ->
             resultOf r = (EmptyString, Some UserWrongPassword) /\
             List.filter isGenerate (callsOf r) = []) /\
  (forall u, answer = (Some u, None) ->
             ComparePassword u (si_Password si) = true ->
             resultOf r = Generate u /\
             List.filter isGenerate (callsOf r) = [TokenGenerate u]) /\
  (nextFault w = None ->
   (forall id u, userTable w !! id = Some u -> Username u <> si_Username si) ->
   resultOf r = (EmptyString, Some ItemNotFound) /\
   List.filter isGenerate (callsOf r) = []).
Proof.
  cbv zeta. split; [|split; [|split]].
  - run. intros H. revert H. crunch; finish.
  - run. intros u H. revert H. crunch; finish.
  - run. intros u H. revert H. crunch; finish.
  - intros Hok Hfree. apply findByUsername_None in Hfree. revert Hok Hfree.
    run. crunch; finish.
Qed.

(** [DeleteAdminUser] answers [ItemNotFound] for a user that is already
    soft-deleted, and writes nothing. *)
Lemma DeleteAdminUser_rejects_deleted
      (da : DeleteAdminUserInput) (w : World) (u : User) :
  fst (resultOf (userRepo.GetById Active (da_Id da) w)) = Some u ->
  IsDeleted u = true ->
  let r := DeleteAdminUser da w in
  resultOf r = Some ItemNotFound /\
  existsb isWrite (callsOf r) = false /\
  userTable (worldOf r) = userTable w.
Proof. run. intros H Hd. revert H. crunch; finish. Qed.

(** [DeleteCustomerUser] does not look at the soft-delete mark.
    Whenever the lookup answers a user with the Customer role,
    deleted or not, the user is marked and saved again, and
    [ItemNotFound] is not returned. *)
Lemma DeleteCustomerUser_ignores_deleted
      (du : DeleteCustomerUserInput) (w : World) (u : User) :
  fst (resultOf (userRepo.GetById Active (du_Id du) w)) = Some u ->
  IsCustomer u = true ->
  let r := DeleteCustomerUser du w in
  resultOf r <> Some ItemNotFound /\
  List.filter isSave (callsOf r) = [UserSave (Delete (clock w) u) (resultOf r)].
Proof. run. intros H Hd. revert H. crunch; finish. Qed.

(** C5, amended.  For a credential scheme that accepts exactly the
    password a credential was derived from: when the lookup answers an
    admin-like user whose credential accepts the old password,
    [UpdateAdminPassword] overwrites the credential; the new credential
    accepts the new password and, when the new password differs from the
    old one, rejects the old one; the updated entity is what is handed to
    [Save], whose error is the result; when that error is nil the row of
    the user in the table carries the new credential. *)
Theorem UpdateAdminPassword_overwrites
        {correct : HasherCorrect hasher}
        (up : UpdateAdminPasswordInput) (w : World) (u : User) :
  fst (resultOf (userRepo.GetById Active (up_UserId up) w)) = Some u ->
  ExistsAdmin (Some u) = true ->
  ComparePassword u (up_OldPassword up) = true ->
  let r := UpdateAdminPassword up w in
  let u' := UpdatePassword (up_NewPassword up) u in
  ComparePassword u' (up_NewPassword up) = true /\
  (up_OldPassword up <> up_NewPassword up ->
   ComparePassword u' (up_OldPassword up) = false) /\
  List.filter isSave (callsOf r) = [UserSave u' (resultOf r)] /\
  (resultOf r = None ->
   userTable (worldOf r) !! Id u = Some (userRow u') /\
   ComparePassword (userRow u') (up_NewPassword up) = true /\
   (up_OldPassword up <> up_NewPassword up ->
    ComparePassword (userRow u') (up_OldPassword up) = false)).
Proof.
  intros Hu Hadmin Hold.
  assert (Hnew : forall v, Password v = hashPassword (up_NewPassword up) ->
                           ComparePassword v (up_NewPassword up) = true).
  { intros v Hv. unfold ComparePassword. rewrite Hv. by apply compare_hash. }
  assert (Hrej : forall v, Password v = hashPassword (up_NewPassword up) ->
                           up_OldPassword up <> up_NewPassword up ->
                           ComparePassword v (up_OldPassword up) = false).
  { intros v Hv Hne. unfold ComparePassword. rewrite Hv.
    apply not_true_is_false. intros Hc. apply compare_hash in Hc. congruence. }
  cbv zeta. split; [by apply Hnew|]. split; [by apply Hrej|].
  revert Hu. run. crunch; finish.
  apply lookup_insert_eq.
Qed.

(** C6.  [UpdateAdminPassword] returns [ItemNotFound] when the user the
    lookup answers is nil or not admin-like (in particular when the users
    table has no row under the id), and [UserWrongPassword] when the
    credential of that user rejects the old password; in both cases no
    Save is issued and the users table, hence every credential, is as it
    was. *)
Theorem UpdateAdminPassword_rejects (up : UpdateAdminPasswordInput) (w : World) :
  let r := UpdateAdminPassword up w in
  let user := fst (resultOf (userRepo.GetById Active (up_UserId up) w)) in
  (ExistsAdmin user = false ->
   resultOf r = Some ItemNotFound /\
   existsb isSave (callsOf r) = false /\
   userTable (worldOf r) = userTable w) /\
  (userTable w !! up_UserId up = None ->
   resultOf r = Some ItemNotFound /\
   existsb isSave (callsOf r) = false /\
   userTable (worldOf r) = userTable w) /\
  (forall u, user = Some u ->
             ExistsAdmin (Some u) = true ->
             ComparePassword u (up_OldPassword up) = false ->
             resultOf r = Some UserWrongPassword /\
             existsb isSave (callsOf r) = false /\
             userTable (worldOf r) = userTable w).
Proof.
  run. split; [|split].
  - intros H. revert H. crunch; finish.
  - intros H. revert H. crunch; finish.
  - intros u H. revert H. crunch; finish.
Qed.

(** C7.  [UpdateAdminInfo] and [ForceUpdateAdminInfoBySuperAdmin] return
    [ItemAlreadyExist] exactly when the lookup by username answers a user
    whose id is not the id of the target; when it answers the target
    itself the operation goes on and does not return the conflict
    error. *)
Theorem username_conflict_rule :
  (forall ui w,
      let answer := resultOf (userRepo.GetByUsername Active (ui_Username ui) w) in
      let r := UpdateAdminInfo ui w in
      (resultOf r = Some ItemAlreadyExist <->
       exists ex, answer = (Some ex, None) /\ Id ex <> ui_UserId ui) /\
      (forall ex, answer = (Some ex, None) -> Id ex = ui_UserId ui ->
                  resultOf r <> Some ItemAlreadyExist)) /\
  (forall fu w,
      let answer := resultOf (userRepo.GetByUsername Active (fu_Username fu) w) in
      let r := ForceUpdateAdminInfoBySuperAdmin fu w in
      (resultOf r = Some ItemAlreadyExist <->
       exists ex, answer = (Some ex, None) /\ Id ex <> fu_UserId fu) /\
      (forall ex, answer = (Some ex, None) -> Id ex = fu_UserId fu ->
                  resultOf r <> Some ItemAlreadyExist)).
Proof. split; intros ? ?; run; crunch; finish. Qed.

(** C8.  In [UpdateAdminInfo] and [ForceUpdateAdminInfoBySuperAdmin] both
    saves decide the result, whichever finishes first: a save of the run
    that returned an error makes the operation return an error, and the
    operation returns nil exactly when the save of the User and the save
    of the Manager both returned nil. *)
Theorem both_saves_decide :
  (forall ui w,
      let r := UpdateAdminInfo ui w in
      (existsb saveFailed (callsOf r) = true -> resultOf r <> None) /\
      (resultOf r = None <->
       existsb userSaved (callsOf r) && existsb managerSaved (callsOf r) = true)) /\
  (forall fu w,
      let r := ForceUpdateAdminInfoBySuperAdmin fu w in
      (existsb saveFailed (callsOf r) = true -> resultOf r <> None) /\
      (resultOf r = None <->
       existsb userSaved (callsOf r) && existsb managerSaved (callsOf r) = true)).
Proof. split; intros ? ?; run; crunch; finish. Qed.

(** C9.  In [UpdateAdminPassword], [DeleteCustomerUser] and
    [DeleteAdminUser] the error of [GetById] is dropped: whenever the user
    the lookup answers fails the guard of the operation, the result is
    [ItemNotFound], whatever the error of the lookup; and a lookup that
    returns an error answers a user that fails the three guards, so a
    failure of the store reads as an absent user. *)
Theorem lookup_error_discarded (id : N) (w : World) :
  let answer := resultOf (userRepo.GetById Active id w) in
  (adminGuard (fst answer) = false ->
   forall old new,
     resultOf (UpdateAdminPassword (Build_UpdateAdminPasswordInput id old new) w)
     = Some ItemNotFound) /\
  (customerGuard (fst answer) = false ->
   resultOf (DeleteCustomerUser (Build_DeleteCustomerUserInput id) w)
   = Some ItemNotFound) /\
  (deleteAdminGuard (fst answer) = false ->
   resultOf (DeleteAdminUser (Build_DeleteAdminUserInput id) w)
   = Some ItemNotFound) /\
  (forall e, snd answer = Some e ->
             adminGuard (fst answer) = false /\
             customerGuard (fst answer) = false /\
             deleteAdminGuard (fst answer) = false).
Proof.
  unfold adminGuard, customerGuard, deleteAdminGuard.
  run. cbn [up_UserId du_Id da_Id].
  repeat split.
  - intros H old new. revert H. crunch; finish.
  - intros H. revert H. crunch; finish.
  - intros H. revert H. crunch; finish.
  - revert H. crunch; finish.
  - revert H. crunch; finish.
  - revert H. crunch; finish.
Qed.

(** C10.  [CreateCustomerUser], and [CreateAdminUser] once the lookup by
    username has answered no user, return the id of the User they have
    generated, whatever the transaction returns: the id is the stamped
    random value, it is the id of every user handed to [Save], and it is
    never the nil UUID, also when the error is not nil. *)
Theorem created_id_returned_regardless :
  (forall cu w,
      let r := CreateCustomerUser cu w in
      fst (resultOf r) = uuid.stamp (nextEntropy w) /\
      fst (resultOf r) <> uuid.Nil /\
      forallb (savesUserWithId (fst (resultOf r))) (callsOf r) = true) /\
  (forall au w,
      fst (resultOf (userRepo.GetByUsername Active (au_Email au) w)) = None ->
      let r := CreateAdminUser au w in
      fst (resultOf r) = uuid.stamp (nextEntropy w) /\
      fst (resultOf r) <> uuid.Nil /\
      forallb (savesUserWithId (fst (resultOf r))) (callsOf r) = true).
Proof.
  split.
  - intros cu w. run. crunch; finish; apply stamp_not_Nil.
  - intros au w. run. intros H. revert H. crunch; finish; apply stamp_not_Nil.
Qed.

End Properties.

(** * The operations on the sample installation *)

Import sample.
Local Open Scope string_scope.

Lemma markerHasher_correct : HasherCorrect markerHasher.
Proof.
  intros p q. cbn. rewrite String.eqb_eq. split.
  - intros H. by injection H.
  - intros ->. reflexivity.
Qed.

(** The example of the specification: the admin is created, can then be
    found by username with the Admin role, and the Manager carries the
    nickname. *)
Example create_admin_example :
  let r := CreateAdminUser kim (world [] []) in
  let w' := worldOf r in
  resultOf r = (uuid.stamp 5, None) /\
  (Role <$> userRepo.findByUsername (userTable w') "a@b.com") = Some AdminUserRole /\
  (Nickname <$> managerTable w' !! uuid.stamp 5) = Some "K".
Proof. vm_compute. repeat split; reflexivity. Qed.

(** No row of the sample table carries a username other than the three
    of the installation. *)
Lemma sample_username_free (username : string) :
  username <> "admin@b.com" -> username <> "locked@b.com" -> username <> "c@b.com" ->
  usernameFree users username.
Proof.
  intros H1 H2 H3 id u H Hname. subst username.
  unfold users in H.
  repeat (rewrite lookup_insert in H; case_decide;
          [injection H as <-; cbn in *; congruence |]).
  rewrite lookup_empty in H. discriminate H.
Qed.


Lemma CreateAdminUser_duplicate_email_witness :
  users !! 1 = Some admin1 /\
  Username admin1 = au_Email again /\
  let r := CreateAdminUser again (world [] []) in
  snd (resultOf r) = Some ItemAlreadyExist /\
  callsOf r = [UserGetByUsername "admin@b.com"] /\
  existsb isWrite (callsOf r) = false /\
  userTable (worldOf r) = users /\
  managerTable (worldOf r) = managers.
Proof.
  assert (H1 : userTable (world [] []) !! 1 = Some admin1) by (vm_compute; reflexivity).
  split; [exact H1|]. split; [reflexivity|].
  exact (CreateAdminUser_duplicate_email again (world [] []) 1 admin1 H1 eq_refl).
Defined.

(** No row of the sample table carries the username of a stranger. *)
Lemma stranger_unknown (id : N) (u : User) :
  users !! id = Some u -> Username u <> "nobody@b.com".
Proof.
  unfold users. intros Hu.
  repeat (rewrite lookup_insert in Hu; case_decide; [injection Hu as <-; discriminate|]).
  rewrite lookup_empty in Hu. discriminate.
Qed.

Lemma SignInUser_cases_witness :
  resultOf (SignInUser (Build_SignInUserInput "nobody@b.com" "pw") (world [] []))
  = (EmptyString, Some ItemNotFound) /\
  resultOf (SignInUser (Build_SignInUserInput "admin@b.com" "bad") (world [] []))
  = (EmptyString, Some UserWrongPassword) /\
  resultOf (SignInUser (Build_SignInUserInput "admin@b.com" "pw") (world [] []))
  = Generate admin1 /\
  List.filter isGenerate
    (callsOf (SignInUser (Build_SignInUserInput "admin@b.com" "pw") (world [] [])))
  = [TokenGenerate admin1] /\
  resultOf (SignInUser (Build_SignInUserInput "locked@b.com" "root") (world [] []))
  = (EmptyString, Some (AdapterError 1)) /\
  List.filter isGenerate
    (callsOf (SignInUser (Build_SignInUserInput "nobody@b.com" "pw") (world [] [])))
  = [].
Proof.
  pose proof (SignInUser_cases (Build_SignInUserInput "nobody@b.com" "pw") (world [] []))
    as Hnobody.
  pose proof (SignInUser_cases (Build_SignInUserInput "admin@b.com" "bad") (world [] []))
    as Hbad.
  pose proof (SignInUser_cases (Build_SignInUserInput "admin@b.com" "pw") (world [] []))
    as Hgood.
  pose proof (SignInUser_cases (Build_SignInUserInput "locked@b.com" "root") (world [] []))
    as Hlocked.
  cbv zeta in *.
  destruct Hnobody as (Hanswer & _ & _ & Htable).
  destruct Hbad as (_ & Hwrong & _).
  destruct Hgood as (_ & _ & Hright & _).
  destruct Hlocked as (_ & _ & Hrefused & _).
  split; [apply Hanswer; vm_compute; reflexivity|].
  split; [apply (Hwrong admin1); vm_compute; reflexivity|].
  split; [apply (Hright admin1); vm_compute; reflexivity|].
  split; [apply (Hright admin1); vm_compute; reflexivity|].
  split.
  - transitivity (Generate locked2); [|vm_compute; reflexivity].
    apply (Hrefused locked2); vm_compute; reflexivity.
  - apply Htable; [reflexivity | exact stranger_unknown].
Defined.

(** C4.  A customer is deleted twice.  The first call marks the row; the
    second call finds the marked row, passes the guard, marks and saves it
    again and returns nil: it does not return [ItemNotFound].  An admin
    deleted twice through [DeleteAdminUser] gets [ItemNotFound] the second
    time, and no write. *)
Theorem DeleteCustomerUser_twice :
  let du := Build_DeleteCustomerUserInput 7 in
  let first := DeleteCustomerUser du (world [] []) in
  let second := DeleteCustomerUser du (worldOf first) in
  let da := Build_DeleteAdminUserInput 1 in
  let firstAdmin := DeleteAdminUser da (world [] []) in
  let secondAdmin := DeleteAdminUser da (worldOf firstAdmin) in
  resultOf first = None /\
  (IsDeleted <$> userTable (worldOf first) !! 7) = Some true /\
  resultOf second = None /\
  existsb isSave (callsOf second) = true /\
  resultOf firstAdmin = None /\
  resultOf secondAdmin = Some ItemNotFound /\
  existsb isWrite (callsOf secondAdmin) = false.
Proof. vm_compute. repeat split; reflexivity. Qed.

Lemma UpdateAdminPassword_overwrites_witness :
  let up := Build_UpdateAdminPasswordInput 1 "pw" "new" in
  let r := UpdateAdminPassword up (world [] []) in
  resultOf r = None /\
  userTable (worldOf r) !! 1 = Some (userRow (UpdatePassword "new" admin1)) /\
  ComparePassword (userRow (UpdatePassword "new" admin1)) "new" = true /\
  ComparePassword (userRow (UpdatePassword "new" admin1)) "pw" = false.
Proof.
  pose proof (UpdateAdminPassword_overwrites
                (correct := markerHasher_correct)
                (Build_UpdateAdminPasswordInput 1 "pw" "new") (world [] []) admin1) as H.
  cbv zeta in H.
  assert (Hr : resultOf (UpdateAdminPassword (Build_UpdateAdminPasswordInput 1 "pw" "new")
                                             (world [] [])) = None)
    by (vm_compute; reflexivity).
  destruct H as (_ & _ & _ & Hstored);
    [vm_compute; reflexivity | reflexivity | reflexivity |].
  destruct (Hstored Hr) as (Hrow & Hnew & Hold).
  cbv zeta. split; [exact Hr|]. split; [exact Hrow|]. split; [exact Hnew|].
  apply Hold. cbn. discriminate.
Defined.

(** The password update to the letter fails twice on the sample
    installation: when the new password is the old one, the stored user
    still accepts the old password; and when the store refuses the save,
    the stored user does not accept the new password. *)
Lemma password_update_not_to_the_letter :
  ~ passwordUpdateToTheLetter (Build_UpdateAdminPasswordInput 1 "pw" "pw") (world [] []) /\
  ~ passwordUpdateToTheLetter (Build_UpdateAdminPasswordInput 1 "pw" "new")
      (world [None; Some 9] []).
Proof.
  split; intros Hc.
  - destruct (Hc admin1) as (u' & Hrow & _ & Hold);
      [vm_compute; reflexivity | reflexivity | reflexivity |].
    vm_compute in Hrow. injection Hrow as <-. vm_compute in Hold. discriminate.
  - destruct (Hc admin1) as (u' & Hrow & Hnew & _);
      [vm_compute; reflexivity | reflexivity | reflexivity |].
    vm_compute in Hrow. injection Hrow as <-. vm_compute in Hnew. discriminate.
Qed.

Lemma UpdateAdminPassword_rejects_witness :
  (let r := UpdateAdminPassword (Build_UpdateAdminPasswordInput 7 "01012345678" "x")
                                (world [] []) in
   resultOf r = Some ItemNotFound /\
   existsb isSave (callsOf r) = false /\
   userTable (worldOf r) = users) /\
  (let r := UpdateAdminPassword (Build_UpdateAdminPasswordInput 99 "pw" "x")
                                (world [] []) in
   users !! 99 = None /\
   resultOf r = Some ItemNotFound /\
   existsb isSave (callsOf r) = false) /\
  (let r := UpdateAdminPassword (Build_UpdateAdminPasswordInput 1 "bad" "x")
                                (world [] []) in
   resultOf r = Some UserWrongPassword /\
   existsb isSave (callsOf r) = false /\
   userTable (worldOf r) = users).
Proof.
  pose proof (UpdateAdminPassword_rejects
                (Build_UpdateAdminPasswordInput 7 "01012345678" "x") (world [] []))
    as Hcustomer.
  pose proof (UpdateAdminPassword_rejects
                (Build_UpdateAdminPasswordInput 99 "pw" "x") (world [] []))
    as Habsent.
  pose proof (UpdateAdminPassword_rejects
                (Build_UpdateAdminPasswordInput 1 "bad" "x") (world [] []))
    as Hbad.
  cbv zeta in *.
  destruct Hcustomer as (Hguard & _ & _).
  destruct Habsent as (_ & Hnone & _).
  destruct Hbad as (_ & _ & Hwrong).
  assert (H99 : users !! 99 = None) by (vm_compute; reflexivity).
  split; [apply Hguard; vm_compute; reflexivity|].
  split.
  - split; [exact H99|]. destruct (Hnone H99) as (Hr & Hs & _). split; assumption.
  - apply (Hwrong admin1); vm_compute; reflexivity.
Defined.

Lemma username_conflict_rule_witness :
  resultOf (UpdateAdminInfo (Build_UpdateAdminInfoInput 1 "locked@b.com" "Kim" "K")
                            (world [] [])) = Some ItemAlreadyExist /\
  resultOf (UpdateAdminInfo (Build_UpdateAdminInfoInput 1 "admin@b.com" "Kim" "K2")
                            (world [] [])) <> Some ItemAlreadyExist /\
  resultOf (ForceUpdateAdminInfoBySuperAdmin
              (Build_ForceUpdateAdminInfoInput 1 "locked@b.com" "Kim" "K" "pw2")
              (world [] [])) = Some ItemAlreadyExist /\
  resultOf (ForceUpdateAdminInfoBySuperAdmin
              (Build_ForceUpdateAdminInfoInput 1 "admin@b.com" "Kim" "K2" "pw2")
              (world [] [])) <> Some ItemAlreadyExist.
Proof.
  destruct (username_conflict_rule (hasher := markerHasher)) as [Hinfo Hforce].
  split.
  { apply (Hinfo (Build_UpdateAdminInfoInput 1 "locked@b.com" "Kim" "K") (world [] [])).
    exists locked2. split; [vm_compute; reflexivity | cbn; discriminate]. }
  split.
  { apply (proj2 (Hinfo (Build_UpdateAdminInfoInput 1 "admin@b.com" "Kim" "K2")
                        (world [] [])) admin1);
      [vm_compute; reflexivity | reflexivity]. }
  split.
  { apply (Hforce (Build_ForceUpdateAdminInfoInput 1 "locked@b.com" "Kim" "K" "pw2")
                  (world [] [])).
    exists locked2. split; [vm_compute; reflexivity | cbn; discriminate]. }
  apply (proj2 (Hforce (Build_ForceUpdateAdminInfoInput 1 "admin@b.com" "Kim" "K2" "pw2")
                       (world [] [])) admin1);
    [vm_compute; reflexivity | reflexivity].
Defined.

(** The Manager is saved first and written; the save of the User then
    fails: the operation returns the error (and the Manager stays
    written). *)
Lemma both_saves_decide_witness :
  let ui := Build_UpdateAdminInfoInput 1 "admin@b.com" "Kim" "K2" in
  let r := UpdateAdminInfo ui (world [None; None; None; Some 4] [false]) in
  existsb saveFailed (callsOf r) = true /\
  resultOf r <> None /\
  (Nickname <$> managerTable (worldOf r) !! 1) = Some "K2" /\
  let fu := Build_ForceUpdateAdminInfoInput 1 "admin@b.com" "Kim" "K2" "pw2" in
  let r' := ForceUpdateAdminInfoBySuperAdmin fu (world [] []) in
  existsb userSaved (callsOf r') && existsb managerSaved (callsOf r') = true /\
  resultOf r' = None.
Proof.
  destruct (both_saves_decide (hasher := markerHasher)) as [Hinfo Hforce].
  cbv zeta.
  assert (Hs : existsb saveFailed
                 (callsOf (UpdateAdminInfo
                             (Build_UpdateAdminInfoInput 1 "admin@b.com" "Kim" "K2")
                             (world [None; None; None; Some 4] [false]))) = true)
    by (vm_compute; reflexivity).
  split; [exact Hs|].
  split; [exact (proj1 (Hinfo _ _) Hs)|].
  split; [vm_compute; reflexivity|].
  assert (Hb : existsb userSaved
                 (callsOf (ForceUpdateAdminInfoBySuperAdmin
                             (Build_ForceUpdateAdminInfoInput 1 "admin@b.com" "Kim" "K2" "pw2")
                             (world [] [])))
               && existsb managerSaved
                    (callsOf (ForceUpdateAdminInfoBySuperAdmin
                                (Build_ForceUpdateAdminInfoInput 1 "admin@b.com" "Kim" "K2" "pw2")
                                (world [] []))) = true)
    by (vm_compute; reflexivity).
  split; [exact Hb|].
  exact (proj2 (proj2 (Hforce _ _)) Hb).
Defined.

(** The lookup fails with a storage error; the three operations answer
    [ItemNotFound], as they do for an id nobody has. *)
Lemma lookup_error_discarded_witness :
  let w := world [Some 8] [] in
  snd (resultOf (userRepo.GetById Active 1 w)) = Some (DbError 8) /\
  resultOf (UpdateAdminPassword (Build_UpdateAdminPasswordInput 1 "pw" "new") w)
  = Some ItemNotFound /\
  resultOf (DeleteCustomerUser (Build_DeleteCustomerUserInput 1) w) = Some ItemNotFound /\
  resultOf (DeleteAdminUser (Build_DeleteAdminUserInput 1) w) = Some ItemNotFound /\
  resultOf (DeleteAdminUser (Build_DeleteAdminUserInput 99) (world [] []))
  = Some ItemNotFound.
Proof.
  pose proof (lookup_error_discarded (hasher := markerHasher) 1 (world [Some 8] [])) as H.
  cbv zeta in H. destruct H as (Hpw & Hcust & Hadmin & Hguards).
  assert (He : snd (resultOf (userRepo.GetById Active 1 (world [Some 8] [])))
               = Some (DbError 8)) by (vm_compute; reflexivity).
  destruct (Hguards _ He) as (G1 & G2 & G3).
  cbv zeta. split; [exact He|]. split; [exact (Hpw G1 "pw" "new")|].
  split; [exact (Hcust G2)|]. split; [exact (Hadmin G3)|].
  apply (lookup_error_discarded (hasher := markerHasher) 99 (world [] [])).
  vm_compute. reflexivity.
Defined.

(** The save of the transaction fails; the caller still receives the
    generated id, next to the error. *)
Lemma created_id_returned_regardless_witness :
  let r := CreateAdminUser kim (world [None; None; Some 9] []) in
  fst (resultOf (userRepo.GetByUsername Active (au_Email kim) (world [None; None; Some 9] [])))
  = None /\
  snd (resultOf r) = Some (DbError 9) /\
  fst (resultOf r) = uuid.stamp 5 /\
  fst (resultOf r) <> uuid.Nil /\
  let r' := CreateCustomerUser newCustomer (world [None; Some 2] []) in
  snd (resultOf r') = Some (DbError 2) /\
  fst (resultOf r') <> uuid.Nil.
Proof.
  destruct (created_id_returned_regardless (hasher := markerHasher)) as [Hcust Hadmin].
  assert (Ha : fst (resultOf (userRepo.GetByUsername Active (au_Email kim)
                                                     (world [None; None; Some 9] []))) = None)
    by (vm_compute; reflexivity).
  destruct (Hadmin kim (world [None; None; Some 9] []) Ha) as (Hid & Hnz & _).
  destruct (Hcust newCustomer (world [None; Some 2] [])) as (_ & Hnz' & _).
  cbv zeta. split; [exact Ha|]. split; [vm_compute; reflexivity|].
  split; [exact Hid|]. split; [exact Hnz|].
  split; [vm_compute; reflexivity | exact Hnz'].
Defined.

(** * Further properties *)

(** ** The lookup by username *)

Section FurtherProperties.

Context {hasher : PasswordHasher} {tokenAdapter : TokenGenerateAdapter}.

(** X1.  [GetByUsername] changes no table.  What it answers with a nil
    error is a row of the users table that has the username, or nil when
    no row has it; with an error it answers the pointer to the zero entity,
    so the pointer is nil only together with a nil error. *)
Theorem GetByUsername_contract (username : string) (w : World) :
  let r := userRepo.GetByUsername Active username w in
  userTable (worldOf r) = userTable w /\
  managerTable (worldOf r) = managerTable w /\
  (forall u, resultOf r = (Some u, None) ->
             Username u = username /\ exists id, userTable w !! id = Some u) /\
  (resultOf r = (None, None) -> usernameFree (userTable w) username) /\
  (snd (resultOf r) <> None -> fst (resultOf r) = Some zeroUser) /\
  (fst (resultOf r) = None -> snd (resultOf r) = None).
Proof.
  cbv zeta. rewrite GetByUsername_answer.
  split; [run; crunch; reflexivity|].
  split; [run; crunch; reflexivity|].
  destruct (nextFault w) as [c|]; cbn [fst snd].
  { repeat split; intros; simplify_eq; done. }
  destruct (userRepo.findByUsername (userTable w) username) as [found|] eqn:Hfind.
  - apply findByUsername_Some in Hfind as [Hname Hrow].
    repeat split; intros; simplify_eq; done.
  - repeat split; intros; simplify_eq; try done.
    intros id u Hu Hname.
    destruct (findByUsername_is_Some _ _ _ Hu) as [found Hfound].
    rewrite Hname, Hfind in Hfound. discriminate.
Qed.

(** ** Creating accounts *)

(** The world after [CreateCustomerUser] on a store that works, for an
    email no row has. *)
Lemma CreateCustomerUser_works (cu : CreateCustomerUserInput) (w : World) :
  storeWorks w = true ->
  usernameFree (userTable w) (cu_Email cu) ->
  let r := CreateCustomerUser cu w in
  snd (resultOf r) = None /\
  storeWorks (worldOf r) = true /\
  userTable (worldOf r) =
    <[fst (resultOf r) :=
        mkUser (fst (resultOf r)) CustomerUserRole (cu_Email cu)
               (hashPassword (cu_Mobile cu)) None None]> (userTable w).
Proof.
  intros Hw Hfree.
  pose proof (proj2 (keyConflict_false (userTable w)
                       (UpdatePassword (cu_Mobile cu)
                          (mkUser (uuid.stamp (nextEntropy w)) CustomerUserRole
                                  (cu_Email cu) EmptyString None None))
                       (stamp_not_Nil _))
                    (usernameFree_onlyAt _ _ _ Hfree)) as Hkey.
  revert Hkey. run. cbv [nextEntropy UpdatePassword] in *. tidy. follow.
  all: intros; simplify_eq; repeat split; try reflexivity; try assumption.
Qed.

(** What [CreateCustomerUser] returns on a store that works when a row
    under another id has the email. *)
Lemma CreateCustomerUser_refused
      (cu : CreateCustomerUserInput) (w : World) (id : N) (u : User) :
  storeWorks w = true ->
  userTable w !! id = Some u ->
  Username u = cu_Email cu ->
  id <> uuid.stamp (nextEntropy w) ->
  snd (resultOf (CreateCustomerUser cu w)) = Some (DbError userRepo.duplicateEntry).
Proof.
  intros Hw Hu Hname Hid.
  pose proof (keyConflict_taken (userTable w)
                (UpdatePassword (cu_Mobile cu)
                   (mkUser (uuid.stamp (nextEntropy w)) CustomerUserRole
                           (cu_Email cu) EmptyString None None))
                id u Hu Hid Hname) as Hkey.
  revert Hkey. run. cbv [nextEntropy UpdatePassword] in *. tidy. follow.
  all: intros; simplify_eq; reflexivity.
Qed.

(** X3.  [CreateCustomerUser] performs no duplicate check of its own: it
    issues no lookup and leaves the refusal of a taken email to the store.
    It returns nil exactly when the save and the commit of its transaction
    have returned nil.  On a store that works it returns nil when no row
    has the email as username, and the error of the store when a row under
    another id has it.  On nil the row under the returned id has the
    Customer role, the email as username and the credential derived from
    the mobile number; on an error the users table is as it was.  The
    managers table is never touched. *)
Theorem CreateCustomerUser_effect (cu : CreateCustomerUserInput) (w : World) :
  let r := CreateCustomerUser cu w in
  let newId := fst (resultOf r) in
  let err := snd (resultOf r) in
  existsb isLookup (callsOf r) = false /\
  (err = None <->
   existsb userSaved (callsOf r) && existsb committed (callsOf r) = true) /\
  (storeWorks w = true -> usernameFree (userTable w) (cu_Email cu) -> err = None) /\
  (storeWorks w = true ->
   forall id u, userTable w !! id = Some u -> Username u = cu_Email cu -> id <> newId ->
                err = Some (DbError userRepo.duplicateEntry)) /\
  (err = None ->
   userTable (worldOf r) =
     <[newId := mkUser newId CustomerUserRole (cu_Email cu)
                       (hashPassword (cu_Mobile cu)) None None]> (userTable w)) /\
  (err <> None -> userTable (worldOf r) = userTable w) /\
  managerTable (worldOf r) = managerTable w.
Proof.
  cbv zeta.
  assert (Hid : fst (resultOf (CreateCustomerUser cu w)) = uuid.stamp (nextEntropy w))
    by (run; crunch; reflexivity).
  split; [run; crunch; finish|].
  split; [run; crunch; finish|].
  split; [intros Hw Hfree; apply (CreateCustomerUser_works cu w Hw Hfree)|].
  split.
  { intros Hw id u Hu Hname Hne. rewrite Hid in Hne.
    exact (CreateCustomerUser_refused cu w id u Hw Hu Hname Hne). }
  split; [run; crunch; finish|].
  split; [run; crunch; finish|].
  run; crunch; finish.
Qed.

(** X4.  When the lookup by username fails in the store, [CreateAdminUser]
    takes the pointer to the zero entity for an existing user: it returns
    [ItemAlreadyExist] with the nil id, the error of the store is lost, and
    nothing is written. *)
Theorem CreateAdminUser_lookup_failure
        (au : CreateAdminUserInput) (w : World) (c : N) :
  nextFault w = Some c ->
  let r := CreateAdminUser au w in
  resultOf r = (uuid.Nil, Some ItemAlreadyExist) /\
  callsOf r = [UserGetByUsername (au_Email au)] /\
  userTable (worldOf r) = userTable w /\
  managerTable (worldOf r) = managerTable w.
Proof. run. intros H. revert H. crunch; finish. Qed.

(** ** Signing in *)

(** X5.  [SignInUser] only reads: it issues no write and leaves both
    tables as they were; and when the lookup fails in the store it returns
    the error of the store as it is, with the empty token and without
    calling the token adapter. *)
Theorem SignInUser_reads_only (si : SignInUserInput) (w : World) :
  let r := SignInUser si w in
  userTable (worldOf r) = userTable w /\
  managerTable (worldOf r) = managerTable w /\
  existsb isWrite (callsOf r) = false /\
  (forall c, nextFault w = Some c ->
             resultOf r = (EmptyString, Some (DbError c)) /\
             List.filter isGenerate (callsOf r) = []).
Proof.
  run. repeat split.
  1-3: crunch; finish.
  all: revert H; crunch; finish.
Qed.

(** What [SignInUser] returns once the row the lookup finds is known. *)
Lemma SignInUser_found (si : SignInUserInput) (w : World) (u : User) :
  nextFault w = None ->
  userRepo.findByUsername (userTable w) (si_Username si) = Some u ->
  let r := SignInUser si w in
  (ComparePassword u (si_Password si) = true ->
   resultOf r = Generate u /\
   List.filter isGenerate (callsOf r) = [TokenGenerate u]) /\
  (ComparePassword u (si_Password si) = false ->
   resultOf r = (EmptyString, Some UserWrongPassword) /\
   List.filter isGenerate (callsOf r) = []).
Proof. run. intros H1 H2. revert H1 H2. crunch; finish. Qed.

(** X6.  An account that has just been created can sign in.  For a
    credential scheme that accepts exactly the password a credential was
    derived from, on a store that works and for an email no row has:
    after [CreateCustomerUser], [SignInUser] with the email and the mobile
    number calls the token adapter once, on the created user with the
    Customer role and the returned id, and returns what the adapter
    returns; with any other password it returns [UserWrongPassword].  The
    same holds after [CreateAdminUser], with the Admin role and the
    password of the request. *)
Theorem created_account_signs_in {correct : HasherCorrect hasher} (w : World) :
  storeWorks w = true ->
  (forall cu,
      usernameFree (userTable w) (cu_Email cu) ->
      let created := CreateCustomerUser cu w in
      let u := mkUser (fst (resultOf created)) CustomerUserRole (cu_Email cu)
                      (hashPassword (cu_Mobile cu)) None None in
      let sign p := SignInUser (Build_SignInUserInput (cu_Email cu) p) (worldOf created) in
      snd (resultOf created) = None /\
      resultOf (sign (cu_Mobile cu)) = Generate u /\
      List.filter isGenerate (callsOf (sign (cu_Mobile cu))) = [TokenGenerate u] /\
      (forall p, p <> cu_Mobile cu ->
                 resultOf (sign p) = (EmptyString, Some UserWrongPassword))) /\
  (forall au,
      usernameFree (userTable w) (au_Email au) ->
      let created := CreateAdminUser au w in
      let u := mkUser (fst (resultOf created)) AdminUserRole (au_Email au)
                      (hashPassword (au_Password au)) None None in
      let sign p := SignInUser (Build_SignInUserInput (au_Email au) p) (worldOf created) in
      snd (resultOf created) = None /\
      resultOf (sign (au_Password au)) = Generate u /\
      List.filter isGenerate (callsOf (sign (au_Password au))) = [TokenGenerate u] /\
      (forall p, p <> au_Password au ->
                 resultOf (sign p) = (EmptyString, Some UserWrongPassword))).
Proof.
  intros Hw. split.
  - intros cu Hfree. cbv zeta.
    destruct (CreateCustomerUser_works cu w Hw Hfree) as (Hnil & Hw' & Htbl).
    set (id := fst (resultOf (CreateCustomerUser cu w))) in *.
    set (u := mkUser id CustomerUserRole (cu_Email cu) (hashPassword (cu_Mobile cu))
                     None None) in *.
    assert (Hfind : userRepo.findByUsername
                      (userTable (worldOf (CreateCustomerUser cu w))) (cu_Email cu)
                    = Some u).
    { rewrite Htbl.
      apply (findByUsername_insert_fresh (userTable w) id u).
      by apply usernameFree_onlyAt. }
    pose proof (nextFault_storeWorks _ Hw') as Hok.
    split; [exact Hnil|].
    assert (Hgood : ComparePassword u (cu_Mobile cu) = true)
      by (by apply compare_hash).
    destruct (SignInUser_found (Build_SignInUserInput (cu_Email cu) (cu_Mobile cu))
                               _ u Hok Hfind) as [Hyes _].
    destruct (Hyes Hgood) as [Hres Hcalls].
    split; [exact Hres|]. split; [exact Hcalls|].
    intros p Hp.
    destruct (SignInUser_found (Build_SignInUserInput (cu_Email cu) p) _ u Hok Hfind)
      as [_ Hno].
    apply Hno. apply not_true_is_false. intros Hc.
    apply (proj1 (compare_hash _ _)) in Hc. by apply Hp.
  - intros au Hfree. cbv zeta.
    destruct (CreateAdminUser_works au w Hw Hfree) as (Hnil & Hw' & Htbl & _).
    set (id := fst (resultOf (CreateAdminUser au w))) in *.
    set (u := mkUser id AdminUserRole (au_Email au) (hashPassword (au_Password au))
                     None None) in *.
    assert (Hfind : userRepo.findByUsername
                      (userTable (worldOf (CreateAdminUser au w))) (au_Email au)
                    = Some u).
    { rewrite Htbl.
      apply (findByUsername_insert_fresh (userTable w) id u).
      by apply usernameFree_onlyAt. }
    pose proof (nextFault_storeWorks _ Hw') as Hok.
    split; [exact Hnil|].
    assert (Hgood : ComparePassword u (au_Password au) = true)
      by (by apply compare_hash).
    destruct (SignInUser_found (Build_SignInUserInput (au_Email au) (au_Password au))
                               _ u Hok Hfind) as [Hyes _].
    destruct (Hyes Hgood) as [Hres Hcalls].
    split; [exact Hres|]. split; [exact Hcalls|].
    intros p Hp.
    destruct (SignInUser_found (Build_SignInUserInput (au_Email au) p) _ u Hok Hfind)
      as [_ Hno].
    apply Hno. apply not_true_is_false. intros Hc.
    apply (proj1 (compare_hash _ _)) in Hc. by apply Hp.
Qed.


(** ** Deleting accounts *)

(** One run of each delete, read for what it wrote. *)
Lemma delete_summary (id : N) (w : World) :
  let answer := fst (resultOf (userRepo.GetById Active id w)) in
  (let r := DeleteCustomerUser (Build_DeleteCustomerUserInput id) w in
   managerTable (worldOf r) = managerTable w /\
   (resultOf r <> None -> userTable (worldOf r) = userTable w) /\
   (resultOf r = None ->
    exists u, answer = Some u /\ customerGuard answer = true /\
              userTable (worldOf r) =
                <[Id u := mkUser (Id u) (Role u) (Username u) (Password u)
                                 (Some (clock w)) None]> (userTable w))) /\
  (let r := DeleteAdminUser (Build_DeleteAdminUserInput id) w in
   managerTable (worldOf r) = managerTable w /\
   (resultOf r <> None -> userTable (worldOf r) = userTable w) /\
   (resultOf r = None ->
    exists u, answer = Some u /\ deleteAdminGuard answer = true /\
              userTable (worldOf r) =
                <[Id u := mkUser (Id u) (Role u) (Username u) (Password u)
                                 (Some (clock w)) None]> (userTable w))).
Proof.
  unfold customerGuard, deleteAdminGuard. run. cbn [du_Id da_Id].
  split; follow; close; eexists; repeat split; try reflexivity;
    cbn [negb orb]; congruence.
Qed.


(** X7.  A delete changes one row or nothing.  [DeleteCustomerUser] and
    [DeleteAdminUser] never touch the managers table; when they return an
    error the users table is as it was; when they return nil the lookup
    has answered a user that passes the guard, and the users table differs
    only by the row under the id of that user, which now carries the time
    of the call as deletion mark and keeps id, role, username and
    credential. *)
Theorem delete_marks_one_row (id : N) (w : World) :
  let answer := fst (resultOf (userRepo.GetById Active id w)) in
  (let r := DeleteCustomerUser (Build_DeleteCustomerUserInput id) w in
   managerTable (worldOf r) = managerTable w /\
   (resultOf r <> None -> userTable (worldOf r) = userTable w) /\
   (resultOf r = None ->
    exists u, answer = Some u /\ customerGuard answer = true /\
              userTable (worldOf r) =
                <[Id u := mkUser (Id u) (Role u) (Username u) (Password u)
                                 (Some (clock w)) None]> (userTable w))) /\
  (let r := DeleteAdminUser (Build_DeleteAdminUserInput id) w in
   managerTable (worldOf r) = managerTable w /\
   (resultOf r <> None -> userTable (worldOf r) = userTable w) /\
   (resultOf r = None ->
    exists u, answer = Some u /\ deleteAdminGuard answer = true /\
              userTable (worldOf r) =
                <[Id u := mkUser (Id u) (Role u) (Username u) (Password u)
                                 (Some (clock w)) None]> (userTable w))).
Proof. exact (delete_summary id w). Qed.



(** The world after [DeleteCustomerUser] of a customer, on a store that
    works. *)
Lemma DeleteCustomerUser_works (id : N) (w : World) (u : User) :
  storeWorks w = true ->
  userTable w !! id = Some u ->
  IsCustomer u = true ->
  Id u <> uuid.Nil ->
  usernameOnlyAt (userTable w) (Username u) (Id u) ->
  let r := DeleteCustomerUser (Build_DeleteCustomerUserInput id) w in
  resultOf r = None /\
  storeWorks (worldOf r) = true /\
  userTable (worldOf r) = <[Id u := userRow (Delete (clock w) u)]> (userTable w).
Proof.
  intros Hw Hu Hc Hid Honly.
  pose proof (proj2 (keyConflict_false (userTable w) (Delete (clock w) u) Hid) Honly)
    as Hkey.
  revert Hkey. run. cbn [du_Id].
  follow; intros; simplify_eq; repeat split; try reflexivity; try assumption.
Qed.

(** X9.  [SignInUser] does not look at the deletion mark.  On a store that
    works and answers its lookups with the rows as they are stored, for a
    customer stored under its id, which is not the nil UUID, whose
    username no other row has: after
    [DeleteCustomerUser] has returned nil, [SignInUser] with the username
    and a password the credential accepts still calls the token adapter
    once, on the user that is now marked deleted, and returns what the
    adapter returns. *)
Theorem deleted_customer_still_signs_in (w : World) (u : User) (p : string) :
  storeWorks w = true ->
  userTable w !! Id u = Some u ->
  Id u <> uuid.Nil ->
  IsCustomer u = true ->
  usernameOnlyAt (userTable w) (Username u) (Id u) ->
  ComparePassword u p = true ->
  let deleted := DeleteCustomerUser (Build_DeleteCustomerUserInput (Id u)) w in
  let signed := SignInUser (Build_SignInUserInput (Username u) p) (worldOf deleted) in
  let marked := userRow (Delete (clock w) u) in
  resultOf deleted = None /\
  IsDeleted marked = true /\
  userTable (worldOf deleted) !! Id u = Some marked /\
  resultOf signed = Generate marked /\
  List.filter isGenerate (callsOf signed) = [TokenGenerate marked].
Proof.
  intros Hw Hu Hid Hc Honly Hp. cbv zeta.
  destruct (DeleteCustomerUser_works (Id u) w u Hw Hu Hc Hid Honly)
    as (Hnil & Hw' & Htbl).
  split; [exact Hnil|]. split; [reflexivity|].
  split; [rewrite Htbl; apply lookup_insert_eq|].
  assert (Hfind : userRepo.findByUsername
                    (userTable (worldOf (DeleteCustomerUser
                                           (Build_DeleteCustomerUserInput (Id u)) w)))
                    (Username u)
                  = Some (userRow (Delete (clock w) u))).
  { rewrite Htbl.
    apply (findByUsername_insert_fresh (userTable w) (Id u)
                                       (userRow (Delete (clock w) u))).
    exact Honly. }
  apply (SignInUser_found (Build_SignInUserInput (Username u) p) _ _
                          (nextFault_storeWorks _ Hw') Hfind).
  exact Hp.
Qed.

(** ** Updating an admin *)

(** One run of [UpdateAdminInfo], read for what it wrote.  The user the
    operation works on is the row the lookup by username answers when that
    row has the id of the request, and the row under that id when no row
    has the username. *)
Lemma UpdateAdminInfo_summary (ui : UpdateAdminInfoInput) (w : World) :
  let r := UpdateAdminInfo ui w in
  (resultOf r = None ->
   exists u m,
     (userRepo.findByUsername (userTable w) (ui_Username ui) = Some u /\
      Id u = ui_UserId ui
      \/ userRepo.findByUsername (userTable w) (ui_Username ui) = None /\
         userTable w !! ui_UserId ui = Some u) /\
     ExistsAdmin (Some u) = true /\
     managerTable w !! Id u = Some m /\
     userTable (worldOf r) =
       <[Id u := mkUser (Id u) (Role u) (ui_Username ui) (Password u)
                        (DeletedAt u) None]> (userTable w) /\
     managerTable (worldOf r) =
       <[ManagerId m := mkManager (ManagerId m) (ui_Name ui) (ui_Nickname ui)
                                  (ui_Username ui)]> (managerTable w)) /\
  (resultOf r <> None ->
   (existsb managerSaved (callsOf r) = true ->
    userTable (worldOf r) = userTable w /\
    exists id m, managerTable (worldOf r) = <[id := m]> (managerTable w) /\
                 Name m = ui_Name ui /\ Nickname m = ui_Nickname ui) /\
   (existsb userSaved (callsOf r) = true ->
    managerTable (worldOf r) = managerTable w /\
    exists id row, userTable (worldOf r) = <[id := row]> (userTable w) /\
                   Username row = ui_Username ui)) /\
  (resultOf r = Some ItemAlreadyExist \/ resultOf r = Some ItemNotFound ->
   existsb isWrite (callsOf r) = false) /\
  (existsb isWrite (callsOf r) = false ->
   userTable (worldOf r) = userTable w /\
   managerTable (worldOf r) = managerTable w) /\
  (forall c, nextFault w = Some c -> resultOf r = Some (DbError c)).
Proof.
  cbv zeta. destruct (UpdateAdminInfo ui w) as [[res w'] tr] eqn:Hrun.
  revert Hrun. run. cbv [UpdateManagerInfo UpdatePassword userRow] in *.
  cbn [Id Role Username Password DeletedAt Manager_ ManagerId] in *.
  crunch.
  all: intros [= <- <- <-].
  all: leaf.
  all: simplify_eq.
  all: try (eexists; eexists; 
            split; [first [left; split; [reflexivity | eassumption]
                          | right; split; reflexivity]|];
            repeat split; first [eassumption | reflexivity]).
  all: try (repeat eexists; first [eassumption | reflexivity]).
Qed.

(** One run of [ForceUpdateAdminInfoBySuperAdmin], read for what it
    wrote. *)
Lemma ForceUpdateAdminInfo_summary (fu : ForceUpdateAdminInfoInput) (w : World) :
  let r := ForceUpdateAdminInfoBySuperAdmin fu w in
  (resultOf r = None ->
   exists u m,
     (userRepo.findByUsername (userTable w) (fu_Username fu) = Some u /\
      Id u = fu_UserId fu
      \/ userRepo.findByUsername (userTable w) (fu_Username fu) = None /\
         userTable w !! fu_UserId fu = Some u) /\
     ExistsAdmin (Some u) = true /\
     managerTable w !! Id u = Some m /\
     userTable (worldOf r) =
       <[Id u := mkUser (Id u) (Role u) (fu_Username fu)
                        (hashPassword (fu_Password fu)) (DeletedAt u) None]>
         (userTable w) /\
     managerTable (worldOf r) =
       <[ManagerId m := mkManager (ManagerId m) (fu_Name fu) (fu_Nickname fu)
                                  (fu_Username fu)]> (managerTable w)) /\
  (resultOf r <> None ->
   (existsb managerSaved (callsOf r) = true ->
    userTable (worldOf r) = userTable w /\
    exists id m, managerTable (worldOf r) = <[id := m]> (managerTable w) /\
                 Name m = fu_Name fu /\ Nickname m = fu_Nickname fu) /\
   (existsb userSaved (callsOf r) = true ->
    managerTable (worldOf r) = managerTable w /\
    exists id row, userTable (worldOf r) = <[id := row]> (userTable w) /\
                   Username row = fu_Username fu)) /\
  (resultOf r = Some ItemAlreadyExist \/ resultOf r = Some ItemNotFound ->
   existsb isWrite (callsOf r) = false) /\
  (existsb isWrite (callsOf r) = false ->
   userTable (worldOf r) = userTable w /\
   managerTable (worldOf r) = managerTable w) /\
  (forall c, nextFault w = Some c -> resultOf r = Some (DbError c)).
Proof.
  cbv zeta. destruct (ForceUpdateAdminInfoBySuperAdmin fu w) as [[res w'] tr] eqn:Hrun.
  revert Hrun. run. cbv [UpdateManagerInfo UpdatePassword userRow] in *.
  cbn [Id Role Username Password DeletedAt Manager_ ManagerId] in *.
  crunch.
  all: intros [= <- <- <-].
  all: leaf.
  all: simplify_eq.
  all: try (eexists; eexists; 
            split; [first [left; split; [reflexivity | eassumption]
                          | right; split; reflexivity]|];
            repeat split; first [eassumption | reflexivity]).
  all: try (repeat eexists; first [eassumption | reflexivity]).
Qed.

(** The unique index and the primary key let a row pass by its id and
    its username alone. *)
Lemma keyConflict_columns tbl user id username :
  Id user = id -> Username user = username ->
  id <> uuid.Nil -> usernameOnlyAt tbl username id ->
  userRepo.keyConflict tbl user = false.
Proof. intros <- <- Hid Honly. by apply keyConflict_false. Qed.

(** [UpdateAdminInfo] on a store that works. *)
Lemma UpdateAdminInfo_works (ui : UpdateAdminInfoInput) (w : World) (u : User) (m : Manager) :
  storeWorks w = true ->
  (userRepo.findByUsername (userTable w) (ui_Username ui) = Some u /\
   Id u = ui_UserId ui
   \/ userRepo.findByUsername (userTable w) (ui_Username ui) = None /\
      userTable w !! ui_UserId ui = Some u) ->
  ExistsAdmin (Some u) = true ->
  managerTable w !! Id u = Some m ->
  Id u <> uuid.Nil ->
  usernameOnlyAt (userTable w) (ui_Username ui) (Id u) ->
  resultOf (UpdateAdminInfo ui w) = None.
Proof.
  intros Hw Htarget Hadmin Hm Hid Honly.
  pose proof (fun row H1 H2 =>
                keyConflict_columns (userTable w) row (Id u) (ui_Username ui)
                                    H1 H2 Hid Honly) as Hkey.
  clear Hid Honly.
  destruct Htarget as [[Hfind Htarget] | [Hfind Htarget]].
  all: run; cbv [UpdateManagerInfo UpdatePassword] in *.
  all: repeat (open_faults;
               first [known | rewrite Hkey by reflexivity | step]); open_faults.
  all: first [reflexivity | leaf].
Qed.

(** [ForceUpdateAdminInfoBySuperAdmin] on a store that works. *)
Lemma ForceUpdateAdminInfo_works (fu : ForceUpdateAdminInfoInput) (w : World) (u : User) (m : Manager) :
  storeWorks w = true ->
  (userRepo.findByUsername (userTable w) (fu_Username fu) = Some u /\
   Id u = fu_UserId fu
   \/ userRepo.findByUsername (userTable w) (fu_Username fu) = None /\
      userTable w !! fu_UserId fu = Some u) ->
  ExistsAdmin (Some u) = true ->
  managerTable w !! Id u = Some m ->
  Id u <> uuid.Nil ->
  usernameOnlyAt (userTable w) (fu_Username fu) (Id u) ->
  resultOf (ForceUpdateAdminInfoBySuperAdmin fu w) = None.
Proof.
  intros Hw Htarget Hadmin Hm Hid Honly.
  pose proof (fun row H1 H2 =>
                keyConflict_columns (userTable w) row (Id u) (fu_Username fu)
                                    H1 H2 Hid Honly) as Hkey.
  clear Hid Honly.
  destruct Htarget as [[Hfind Htarget] | [Hfind Htarget]].
  all: run; cbv [UpdateManagerInfo UpdatePassword] in *.
  all: repeat (open_faults;
               first [known | rewrite Hkey by reflexivity | step]); open_faults.
  all: first [reflexivity | leaf].
Qed.

(** X10.  What an update writes, and when it succeeds.  The user an update
    works on is the row the lookup by username answers when that row has
    the id of the request, and the row of the users table under that id
    when no row has the username.  When [UpdateAdminInfo] returns nil,
    that user [u] is admin-like and has a Manager row [m] under its id;
    the row of [u] now carries the new username and keeps the role, the
    credential and the deletion mark [u] had, and the row of [m] carries
    the new name, nickname and username.
    [ForceUpdateAdminInfoBySuperAdmin] does the same and replaces the
    credential by the one derived from the new password.  On a store that
    works, both return nil whenever that user is admin-like, has a Manager
    row under its id, its id is not the nil UUID and no row under another
    id has the new username. *)
Theorem update_writes (w : World) :
  (forall ui,
      let r := UpdateAdminInfo ui w in
      let target u :=
        userRepo.findByUsername (userTable w) (ui_Username ui) = Some u /\
        Id u = ui_UserId ui
        \/ userRepo.findByUsername (userTable w) (ui_Username ui) = None /\
           userTable w !! ui_UserId ui = Some u in
      (resultOf r = None ->
       exists u m,
         target u /\
         ExistsAdmin (Some u) = true /\
         managerTable w !! Id u = Some m /\
         userTable (worldOf r) =
           <[Id u := mkUser (Id u) (Role u) (ui_Username ui) (Password u)
                            (DeletedAt u) None]> (userTable w) /\
         managerTable (worldOf r) =
           <[ManagerId m := mkManager (ManagerId m) (ui_Name ui) (ui_Nickname ui)
                                      (ui_Username ui)]> (managerTable w)) /\
      (forall u m,
          storeWorks w = true ->
          target u ->
          ExistsAdmin (Some u) = true ->
          managerTable w !! Id u = Some m ->
          Id u <> uuid.Nil ->
          usernameOnlyAt (userTable w) (ui_Username ui) (Id u) ->
          resultOf r = None)) /\
  (forall fu,
      let r := ForceUpdateAdminInfoBySuperAdmin fu w in
      let target u :=
        userRepo.findByUsername (userTable w) (fu_Username fu) = Some u /\
        Id u = fu_UserId fu
        \/ userRepo.findByUsername (userTable w) (fu_Username fu) = None /\
           userTable w !! fu_UserId fu = Some u in
      (resultOf r = None ->
       exists u m,
         target u /\
         ExistsAdmin (Some u) = true /\
         managerTable w !! Id u = Some m /\
         userTable (worldOf r) =
           <[Id u := mkUser (Id u) (Role u) (fu_Username fu)
                            (hashPassword (fu_Password fu))
                            (DeletedAt u) None]> (userTable w) /\
         managerTable (worldOf r) =
           <[ManagerId m := mkManager (ManagerId m) (fu_Name fu) (fu_Nickname fu)
                                      (fu_Username fu)]> (managerTable w)) /\
      (forall u m,
          storeWorks w = true ->
          target u ->
          ExistsAdmin (Some u) = true ->
          managerTable w !! Id u = Some m ->
          Id u <> uuid.Nil ->
          usernameOnlyAt (userTable w) (fu_Username fu) (Id u) ->
          resultOf r = None)).
Proof.
  split; intros x; cbv zeta; split.
  - exact (proj1 (UpdateAdminInfo_summary x w)).
  - intros u m. exact (UpdateAdminInfo_works x w u m).
  - exact (proj1 (ForceUpdateAdminInfo_summary x w)).
  - intros u m. exact (ForceUpdateAdminInfo_works x w u m).
Qed.

(** X11.  The two saves of an update are not undone.  When
    [UpdateAdminInfo] or [ForceUpdateAdminInfoBySuperAdmin] returns an
    error after the save of the Manager has returned nil, the Manager row
    stays written, with the new name and nickname, while the users table is
    as it was; and when the save of the User has returned nil, the User row
    stays written, with the new username, while the managers table is as
    it was. *)
Theorem update_keeps_the_write_that_succeeded (w : World) :
  (forall ui,
      let r := UpdateAdminInfo ui w in
      resultOf r <> None ->
      (existsb managerSaved (callsOf r) = true ->
       userTable (worldOf r) = userTable w /\
       exists id m, managerTable (worldOf r) = <[id := m]> (managerTable w) /\
                    Name m = ui_Name ui /\ Nickname m = ui_Nickname ui) /\
      (existsb userSaved (callsOf r) = true ->
       managerTable (worldOf r) = managerTable w /\
       exists id row, userTable (worldOf r) = <[id := row]> (userTable w) /\
                      Username row = ui_Username ui)) /\
  (forall fu,
      let r := ForceUpdateAdminInfoBySuperAdmin fu w in
      resultOf r <> None ->
      (existsb managerSaved (callsOf r) = true ->
       userTable (worldOf r) = userTable w /\
       exists id m, managerTable (worldOf r) = <[id := m]> (managerTable w) /\
                    Name m = fu_Name fu /\ Nickname m = fu_Nickname fu) /\
      (existsb userSaved (callsOf r) = true ->
       managerTable (worldOf r) = managerTable w /\
       exists id row, userTable (worldOf r) = <[id := row]> (userTable w) /\
                      Username row = fu_Username fu)).
Proof.
  split; intros x.
  - exact (proj1 (proj2 (UpdateAdminInfo_summary x w))).
  - exact (proj1 (proj2 (ForceUpdateAdminInfo_summary x w))).
Qed.

(** X12.  An update that is refused writes nothing.  When [UpdateAdminInfo]
    or [ForceUpdateAdminInfoBySuperAdmin] returns [ItemAlreadyExist] or
    [ItemNotFound] no write is issued; whenever no write is issued both
    tables are as they were; and an error of the store in the lookup by
    username is returned as it is. *)
Theorem update_refused_writes_nothing (w : World) :
  (forall ui,
      let r := UpdateAdminInfo ui w in
      (resultOf r = Some ItemAlreadyExist \/ resultOf r = Some ItemNotFound ->
       existsb isWrite (callsOf r) = false) /\
      (existsb isWrite (callsOf r) = false ->
       userTable (worldOf r) = userTable w /\
       managerTable (worldOf r) = managerTable w) /\
      (forall c, nextFault w = Some c -> resultOf r = Some (DbError c))) /\
  (forall fu,
      let r := ForceUpdateAdminInfoBySuperAdmin fu w in
      (resultOf r = Some ItemAlreadyExist \/ resultOf r = Some ItemNotFound ->
       existsb isWrite (callsOf r) = false) /\
      (existsb isWrite (callsOf r) = false ->
       userTable (worldOf r) = userTable w /\
       managerTable (worldOf r) = managerTable w) /\
      (forall c, nextFault w = Some c -> resultOf r = Some (DbError c))).
Proof.
  split; intros x.
  - exact (proj2 (proj2 (UpdateAdminInfo_summary x w))).
  - exact (proj2 (proj2 (ForceUpdateAdminInfo_summary x w))).
Qed.


(** ** The lookup of a user with its manager *)

(** X14.  [loadManager] only reads and always issues its two lookups.
    With an error it returns no user.  With a nil error it returns the row
    of the users table under the id, with the row of the managers table
    under the same id as its Manager (nil when there is none).  When the
    store works and the users table has no row under the id, the
    assignment through the nil pointer panics. *)
Theorem loadManager_joins (ctx : Context) (userId : N) (w : World) :
  let r := loadManager ctx userId w in
  userTable (worldOf r) = userTable w /\
  managerTable (worldOf r) = managerTable w /\
  existsb isWrite (callsOf r) = false /\
  List.length (List.filter isLookup (callsOf r)) = 2%nat /\
  (forall e, snd (resultOf r) = Some e -> fst (resultOf r) = None) /\
  (forall u', resultOf r = (Some u', None) ->
              exists u, userTable w !! userId = Some u /\
                        u' = mkUser (Id u) (Role u) (Username u) (Password u)
                                    (DeletedAt u) (managerTable w !! userId)) /\
  (ctx = Active -> storeWorks w = true -> userTable w !! userId = None ->
   resultOf r = (None, Some PanicNilPointer)).
Proof.
  exec (loadManager ctx userId w). follow; landed; leaf.
  all: simplify_eq; eexists; split; reflexivity.
Qed.

(** ** A password change, seen from the sign-in *)

(** The world after [UpdateAdminPassword] by an admin-like user who gives
    the old password, on a store that works. *)
Lemma UpdateAdminPassword_works (up : UpdateAdminPasswordInput) (w : World) (u : User) :
  storeWorks w = true ->
  userTable w !! up_UserId up = Some u ->
  ExistsAdmin (Some u) = true ->
  ComparePassword u (up_OldPassword up) = true ->
  Id u <> uuid.Nil ->
  usernameOnlyAt (userTable w) (Username u) (Id u) ->
  let r := UpdateAdminPassword up w in
  resultOf r = None /\
  storeWorks (worldOf r) = true /\
  userTable (worldOf r) =
    <[Id u := userRow (UpdatePassword (up_NewPassword up) u)]> (userTable w).
Proof.
  intros Hw Hu Ha Hp Hid Honly.
  pose proof (proj2 (keyConflict_false (userTable w)
                       (UpdatePassword (up_NewPassword up) u) Hid) Honly) as Hkey.
  exec (UpdateAdminPassword up w).
  follow; landed; repeat split; try reflexivity; try assumption; try congruence.
Qed.

(** X15.  A password change takes effect at the next sign-in.  For a
    credential scheme that accepts exactly the password a credential was
    derived from, on a store that works, for an admin-like user stored
    under its id, which is not the nil UUID, whose username no other row
    has: after
    [UpdateAdminPassword] with the right old password, [SignInUser] with
    the new password calls the token adapter once, on the user with the new
    credential, and with any other password, the old one included when it
    differs, returns [UserWrongPassword]. *)
Theorem password_change_reaches_sign_in
        {correct : HasherCorrect hasher}
        (up : UpdateAdminPasswordInput) (w : World) (u : User) :
  storeWorks w = true ->
  userTable w !! up_UserId up = Some u ->
  Id u = up_UserId up ->
  Id u <> uuid.Nil ->
  ExistsAdmin (Some u) = true ->
  usernameOnlyAt (userTable w) (Username u) (Id u) ->
  ComparePassword u (up_OldPassword up) = true ->
  let changed := UpdateAdminPassword up w in
  let u' := userRow (UpdatePassword (up_NewPassword up) u) in
  let sign p := SignInUser (Build_SignInUserInput (Username u) p) (worldOf changed) in
  resultOf changed = None /\
  resultOf (sign (up_NewPassword up)) = Generate u' /\
  List.filter isGenerate (callsOf (sign (up_NewPassword up))) = [TokenGenerate u'] /\
  (forall p, p <> up_NewPassword up ->
             resultOf (sign p) = (EmptyString, Some UserWrongPassword)).
Proof.
  intros Hw Hu Hid Hnz Ha Honly Hp. cbv zeta.
  destruct (UpdateAdminPassword_works up w u Hw Hu Ha Hp Hnz Honly)
    as (Hnil & Hw' & Htbl).
  set (u' := userRow (UpdatePassword (up_NewPassword up) u)) in *.
  assert (Hfind : userRepo.findByUsername (userTable (worldOf (UpdateAdminPassword up w)))
                                          (Username u) = Some u').
  { rewrite Htbl. apply (findByUsername_insert_fresh (userTable w) (Id u) u'). exact Honly. }
  pose proof (nextFault_storeWorks _ Hw') as Hok.
  split; [exact Hnil|].
  assert (Hgood : ComparePassword u' (up_NewPassword up) = true)
    by (by apply compare_hash).
  destruct (SignInUser_found (Build_SignInUserInput (Username u) (up_NewPassword up))
                             _ u' Hok Hfind) as [Hyes _].
  destruct (Hyes Hgood) as [Hres Hcalls].
  split; [exact Hres|]. split; [exact Hcalls|].
  intros p Hne.
  destruct (SignInUser_found (Build_SignInUserInput (Username u) p) _ u' Hok Hfind)
    as [_ Hno].
  apply Hno. apply not_true_is_false. intros Hc.
  apply (proj1 (compare_hash _ _)) in Hc. by apply Hne.
Qed.

End FurtherProperties.

(** ** The handlers *)

Section HandlerProperties.

Context {hasher : PasswordHasher} {texts : handler.ErrorText}
        {parser : handler.UuidParser}.

(** X16.  [createAdmin] answers, and a client that is not answered 201 can
    rely on nothing having been written.  The handler never panics; unless
    the status is 201 both tables are as they were; with 201 the body
    carries an id that is not the nil UUID and under which the User, with
    the Admin role and the email as username, and the Manager of the
    request are stored; an email that a row of the users table has as
    username is answered 409 with no write; a request that does not bind
    is answered 400 with the text of the binding error and reaches no
    repository. *)
Theorem createAdmin_answers (bound : handler.Bound handler.CreateAdminRequest)
        (w : World) :
  let r := handler.createAdmin bound w in
  resultOf r <> handler.Panic /\
  (handler.statusOf (resultOf r) <> Some handler.StatusCreated ->
   userTable (worldOf r) = userTable w /\
   managerTable (worldOf r) = managerTable w) /\
  (forall body,
      resultOf r = handler.Respond handler.StatusCreated body ->
      exists id req,
        bound = handler.BoundTo req /\
        body = handler.CreatedCustomerResp id /\
        id <> uuid.Nil /\
        userTable (worldOf r) =
          <[id := mkUser id AdminUserRole (handler.car_Email req)
                         (hashPassword (handler.car_Password req)) None None]>
            (userTable w) /\
        managerTable (worldOf r) =
          <[id := mkManager id (handler.car_Name req) (handler.car_Nickname req)
                            (handler.car_Email req)]> (managerTable w)) /\
  (forall req id u,
      bound = handler.BoundTo req ->
      userTable w !! id = Some u ->
      Username u = handler.car_Email req ->
      resultOf r = handler.Respond handler.StatusConflict handler.ItemExist /\
      existsb isWrite (callsOf r) = false) /\
  (forall message,
      bound = handler.BindFailed message ->
      resultOf r = handler.Respond handler.StatusBadRequest
                                   (handler.ErrorResponse message) /\
      callsOf r = []).
Proof.
  cbv zeta.
  assert (Hconflict :
            forall req id u,
              bound = handler.BoundTo req ->
              userTable w !! id = Some u ->
              Username u = handler.car_Email req ->
              is_Some (userRepo.findByUsername (userTable w) (handler.car_Email req))).
  { intros req id u _ Hu <-. by apply (findByUsername_is_Some _ id). }
  destruct bound as [message | req].
  - clear Hconflict. exec (handler.createAdmin (handler.BindFailed message) w).
    landed. leaf.
  - specialize (Hconflict req).
    exec (handler.createAdmin (handler.BoundTo req) w).
    cbn [au_Email au_Name au_Password au_Nickname] in *.
    crunch; landed; leaf.
    all: try (destruct (Hconflict _ _ eq_refl ltac:(eassumption) ltac:(eassumption))
               as [? ?]; congruence).
    all: try (eexists; eexists; repeat split; try reflexivity; apply stamp_not_Nil).
Qed.


(** The answer of [createCustomer] to a request that binds, by the result
    of the use case. *)
Lemma createCustomer_reply (req : handler.CreateCustomerRequest) (w : World) :
  let created :=
    CreateCustomerUser
      (Build_CreateCustomerUserInput (handler.ccr_Name req) (handler.ccr_Email req)
                                     (handler.ccr_Mobile req)) w in
  resultOf (handler.createCustomer (handler.BoundTo req) w) =
  match snd (resultOf created) with
  | None => handler.Respond handler.StatusCreated
                            (handler.CreatedCustomerResp (fst (resultOf created)))
  | Some _ => handler.Respond handler.StatusInternalServerError
                              handler.ServerInternalErrorResponse
  end.
Proof. run_more. crunch; reflexivity. Qed.

(** X17.  [createCustomer] never panics and answers a request that binds
    with 201 or 500.  With 201 the body carries an id that is not the nil
    UUID, under which the row with the Customer role, the email and the
    credential derived from the mobile number is stored.  Every other
    outcome of the use case is answered 500 with the fixed internal-error
    body, so the id that was generated is not given out, and the tables are
    as they were.  On a store that works the answer is 201 when no row has
    the email, and 500 when a row under another id has it: the handler has
    no answer of its own for a taken email.  A request that does not bind
    is answered 400 and reaches no repository. *)
Theorem createCustomer_answers (bound : handler.Bound handler.CreateCustomerRequest)
        (w : World) :
  let r := handler.createCustomer bound w in
  resultOf r <> handler.Panic /\
  (handler.statusOf (resultOf r) <> Some handler.StatusCreated ->
   userTable (worldOf r) = userTable w /\
   managerTable (worldOf r) = managerTable w) /\
  (forall req,
      bound = handler.BoundTo req ->
      (forall body,
          resultOf r = handler.Respond handler.StatusCreated body ->
          exists id,
            body = handler.CreatedCustomerResp id /\
            id <> uuid.Nil /\
            userTable (worldOf r) =
              <[id := mkUser id CustomerUserRole (handler.ccr_Email req)
                             (hashPassword (handler.ccr_Mobile req)) None None]>
                (userTable w)) /\
      (handler.statusOf (resultOf r) <> Some handler.StatusCreated ->
       resultOf r = handler.Respond handler.StatusInternalServerError
                                    handler.ServerInternalErrorResponse) /\
      (storeWorks w = true ->
       usernameFree (userTable w) (handler.ccr_Email req) ->
       handler.statusOf (resultOf r) = Some handler.StatusCreated) /\
      (storeWorks w = true ->
       forall id u,
         userTable w !! id = Some u ->
         Username u = handler.ccr_Email req ->
         id <> uuid.stamp (nextEntropy w) ->
         resultOf r = handler.Respond handler.StatusInternalServerError
                                      handler.ServerInternalErrorResponse)) /\
  (forall message,
      bound = handler.BindFailed message ->
      resultOf r = handler.Respond handler.StatusBadRequest
                                   (handler.ErrorResponse message) /\
      callsOf r = []).
Proof.
  destruct bound as [message | req].
  - exec (handler.createCustomer (handler.BindFailed message) w). landed. leaf.
  - cbv zeta.
    pose proof (createCustomer_reply req w) as Hreply. cbv zeta in Hreply.
    set (cu := Build_CreateCustomerUserInput (handler.ccr_Name req) (handler.ccr_Email req)
                                             (handler.ccr_Mobile req)) in *.
    assert (Hworks : storeWorks w = true ->
                     usernameFree (userTable w) (handler.ccr_Email req) ->
                     handler.statusOf (resultOf (handler.createCustomer
                                                   (handler.BoundTo req) w))
                     = Some handler.StatusCreated).
    { intros Hw Hfree. rewrite Hreply.
      destruct (CreateCustomerUser_works cu w Hw Hfree) as (-> & _). reflexivity. }
    assert (Hrefused : storeWorks w = true ->
                       forall id u,
                         userTable w !! id = Some u ->
                         Username u = handler.ccr_Email req ->
                         id <> uuid.stamp (nextEntropy w) ->
                         resultOf (handler.createCustomer (handler.BoundTo req) w)
                         = handler.Respond handler.StatusInternalServerError
                                           handler.ServerInternalErrorResponse).
    { intros Hw id u Hu Hname Hid. rewrite Hreply.
      by rewrite (CreateCustomerUser_refused cu w id u Hw Hu Hname Hid). }
    clear Hreply. subst cu.
    split; [|split; [|split]].
    3: { intros ? [= <-]. split; [|split; [|split; [exact Hworks | exact Hrefused]]].
         all: clear Hworks Hrefused.
         all: exec (handler.createCustomer (handler.BoundTo req) w).
         all: cbn [cu_Email cu_Name cu_Mobile] in *.
         all: crunch; landed; leaf.
         all: eexists; repeat split; try reflexivity; apply stamp_not_Nil. }
    all: clear Hworks Hrefused.
    all: exec (handler.createCustomer (handler.BoundTo req) w).
    all: cbn [cu_Email cu_Name cu_Mobile] in *.
    all: crunch; landed; leaf.
Qed.


(** X19.  The delete handlers never answer 204.  When the use case has
    marked the row and its save has returned nil, [deleteCustomerUser] and
    [deleteAdminUser] reach [err.Error()] on the nil error and panic: the
    handler panics exactly when a save of the run has returned nil.  They
    answer 404 only when nothing has been written. *)
Theorem delete_handlers_never_confirm (w : World) :
  (forall bound,
      let r := handler.deleteCustomerUser bound w in
      handler.statusOf (resultOf r) <> Some handler.StatusNoContent /\
      (resultOf r = handler.Panic <-> existsb userSaved (callsOf r) = true) /\
      (handler.statusOf (resultOf r) = Some handler.StatusNotFound ->
       existsb isWrite (callsOf r) = false /\
       userTable (worldOf r) = userTable w)) /\
  (forall bound,
      let r := handler.deleteAdminUser bound w in
      handler.statusOf (resultOf r) <> Some handler.StatusNoContent /\
      (resultOf r = handler.Panic <-> existsb userSaved (callsOf r) = true) /\
      (handler.statusOf (resultOf r) = Some handler.StatusNotFound ->
       existsb isWrite (callsOf r) = false /\
       userTable (worldOf r) = userTable w)).
Proof.
  split; intros [message | req].
  - exec (handler.deleteCustomerUser (handler.BindFailed message) w). landed. leaf.
  - exec (handler.deleteCustomerUser (handler.BoundTo req) w).
    cbn [du_Id] in *. crunch; landed; leaf.
  - exec (handler.deleteAdminUser (handler.BindFailed message) w). landed. leaf.
  - exec (handler.deleteAdminUser (handler.BoundTo req) w).
    cbn [da_Id] in *. crunch; landed; leaf.
Qed.

End HandlerProperties.

Import sampleHandler.

(** * The further properties on the sample installation *)



Lemma sample_username_only (u : User) :
  users !! Id u = Some u -> usernameOnlyAt users (Username u) (Id u).
Proof.
  intros Hu id' v Hv Hname.
  unfold users in Hu, Hv.
  repeat (rewrite lookup_insert in Hu; case_decide;
          [injection Hu as <-; cbn in *|]);
    repeat (rewrite lookup_insert in Hv; case_decide;
            [injection Hv as <-; cbn in *; first [congruence | discriminate] |]);
    try (rewrite lookup_empty in Hv; discriminate Hv);
    try (rewrite lookup_empty in Hu; discriminate Hu).
Qed.

Lemma GetByUsername_contract_witness :
  (Username admin1 = "admin@b.com" /\ exists id, users !! id = Some admin1) /\
  fst (resultOf (userRepo.GetByUsername Active "admin@b.com" (world [Some 3] [])))
  = Some zeroUser /\
  usernameFree users "nobody@b.com".
Proof.
  pose proof (GetByUsername_contract "admin@b.com" (world [] [])) as Hfound.
  pose proof (GetByUsername_contract "admin@b.com" (world [Some 3] [])) as Hfailed.
  pose proof (GetByUsername_contract "nobody@b.com" (world [] [])) as Habsent.
  cbv zeta in *.
  destruct Hfound as (_ & _ & Hrow & _).
  destruct Hfailed as (_ & _ & _ & _ & Hzero & _).
  destruct Habsent as (_ & _ & _ & Hfree & _).
  split; [apply (Hrow admin1); vm_compute; reflexivity|].
  split; [apply Hzero; vm_compute; discriminate|].
  apply Hfree. vm_compute. reflexivity.
Defined.

Lemma CreateCustomerUser_effect_witness :
  let taken := Build_CreateCustomerUserInput "cho" "c@b.com" "01012345678" in
  let stored := CreateCustomerUser newCustomer (world [] []) in
  let refused := CreateCustomerUser taken (world [] []) in
  storeWorks (world [] []) = true /\
  usernameFree users (cu_Email newCustomer) /\
  snd (resultOf stored) = None /\
  (Role <$> userTable (worldOf stored) !! uuid.stamp 5) = Some CustomerUserRole /\
  users !! 7 = Some customer7 /\
  snd (resultOf refused) = Some (DbError userRepo.duplicateEntry) /\
  userTable (worldOf refused) = users.
Proof.
  pose proof (CreateCustomerUser_effect newCustomer (world [] [])) as Hstored.
  pose proof (CreateCustomerUser_effect
                (Build_CreateCustomerUserInput "cho" "c@b.com" "01012345678")
                (world [] [])) as Hrefused.
  cbv zeta in *.
  destruct Hstored as (_ & _ & Hfresh & _ & Hrow & _).
  destruct Hrefused as (_ & _ & _ & Htaken & _ & Hsame & _).
  assert (Hfree : usernameFree users (cu_Email newCustomer))
    by (apply sample_username_free; discriminate).
  assert (H7 : users !! 7 = Some customer7) by (vm_compute; reflexivity).
  pose proof (Hfresh eq_refl Hfree) as Hnil.
  assert (Herr : snd (resultOf (CreateCustomerUser
                                  (Build_CreateCustomerUserInput "cho" "c@b.com"
                                                                 "01012345678")
                                  (world [] [])))
                 = Some (DbError userRepo.duplicateEntry)).
  { apply (Htaken eq_refl 7 customer7 H7 eq_refl). vm_compute. discriminate. }
  split; [reflexivity|]. split; [exact Hfree|]. split; [exact Hnil|].
  split; [rewrite (Hrow Hnil); vm_compute; reflexivity|].
  split; [exact H7|]. split; [exact Herr|].
  apply Hsame. rewrite Herr. discriminate.
Defined.

Lemma CreateAdminUser_lookup_failure_witness :
  nextFault (world [Some 4] []) = Some 4 /\
  resultOf (CreateAdminUser kim (world [Some 4] [])) = (uuid.Nil, Some ItemAlreadyExist) /\
  usernameFree users (au_Email kim).
Proof.
  split; [reflexivity|].
  split; [apply (CreateAdminUser_lookup_failure kim (world [Some 4] []) 4 eq_refl)|].
  apply sample_username_free; discriminate.
Defined.

Lemma SignInUser_reads_only_witness :
  let r := SignInUser (Build_SignInUserInput "admin@b.com" "pw") (world [Some 6] []) in
  nextFault (world [Some 6] []) = Some 6 /\
  resultOf r = (EmptyString, Some (DbError 6)) /\
  List.filter isGenerate (callsOf r) = [] /\
  userTable (worldOf r) = users.
Proof.
  pose proof (SignInUser_reads_only (Build_SignInUserInput "admin@b.com" "pw")
                                    (world [Some 6] [])) as H.
  cbv zeta in *. destruct H as (Hsame & _ & _ & Hfail).
  destruct (Hfail 6 eq_refl) as [Hres Hcalls].
  split; [reflexivity|]. split; [exact Hres|]. split; [exact Hcalls | exact Hsame].
Defined.

Lemma created_account_signs_in_witness :
  storeWorks (world [] []) = true /\
  resultOf (SignInUser (Build_SignInUserInput "example@example.com" "01012345678")
                       (worldOf (CreateCustomerUser newCustomer (world [] []))))
  = ("token:example@example.com", None) /\
  resultOf (SignInUser (Build_SignInUserInput "a@b.com" "Pw1!")
                       (worldOf (CreateAdminUser kim (world [] []))))
  = ("token:a@b.com", None) /\
  resultOf (SignInUser (Build_SignInUserInput "a@b.com" "pw1!")
                       (worldOf (CreateAdminUser kim (world [] []))))
  = (EmptyString, Some UserWrongPassword).
Proof.
  destruct (created_account_signs_in (correct := markerHasher_correct)
                                     (world [] []) eq_refl) as [Hcustomer Hadmin].
  assert (Hfree1 : usernameFree users (cu_Email newCustomer))
    by (apply sample_username_free; discriminate).
  assert (Hfree2 : usernameFree users (au_Email kim))
    by (apply sample_username_free; discriminate).
  destruct (Hcustomer newCustomer Hfree1) as (_ & Hin & _ & _).
  destruct (Hadmin kim Hfree2) as (_ & Hin' & _ & Hout).
  split; [reflexivity|].
  split; [etransitivity; [exact Hin | vm_compute; reflexivity]|].
  split; [etransitivity; [exact Hin' | vm_compute; reflexivity]|].
  apply Hout. discriminate.
Defined.

Lemma delete_marks_one_row_witness :
  let r := DeleteCustomerUser (Build_DeleteCustomerUserInput 7) (world [] []) in
  resultOf r = None /\
  exists u,
    userTable (worldOf r) =
      <[Id u := mkUser (Id u) (Role u) (Username u) (Password u) (Some 100) None]> users.
Proof.
  pose proof (delete_marks_one_row 7 (world [] [])) as H. cbv zeta in H.
  destruct H as [(_ & _ & Hrow) _].
  assert (Hnil : resultOf (DeleteCustomerUser (Build_DeleteCustomerUserInput 7)
                                              (world [] [])) = None)
    by (vm_compute; reflexivity).
  destruct (Hrow Hnil) as (u & _ & _ & Htbl).
  cbv zeta. split; [exact Hnil|]. exists u. exact Htbl.
Defined.


Lemma deleted_customer_still_signs_in_witness :
  let deleted := DeleteCustomerUser (Build_DeleteCustomerUserInput 7) (world [] []) in
  resultOf deleted = None /\
  (IsDeleted <$> userTable (worldOf deleted) !! 7) = Some true /\
  resultOf (SignInUser (Build_SignInUserInput "c@b.com" "01012345678") (worldOf deleted))
  = ("token:c@b.com", None).
Proof.
  assert (Hrow : users !! Id customer7 = Some customer7) by (vm_compute; reflexivity).
  assert (Hp : ComparePassword customer7 "01012345678" = true)
    by (vm_compute; reflexivity).
  assert (Hid : Id customer7 <> uuid.Nil) by discriminate.
  destruct (deleted_customer_still_signs_in (world [] []) customer7 "01012345678"
              eq_refl Hrow Hid eq_refl (sample_username_only customer7 Hrow) Hp)
    as (Hnil & _ & Hmarked & Hsigned & _).
  cbv zeta. split; [exact Hnil|].
  split; [etransitivity; [exact (f_equal (fmap IsDeleted) Hmarked) | reflexivity]|].
  etransitivity; [exact Hsigned | vm_compute; reflexivity].
Defined.

Lemma update_writes_witness :
  let ui := Build_UpdateAdminInfoInput 1 "kim@b.com" "Kim" "K2" in
  let r := UpdateAdminInfo ui (world [] []) in
  storeWorks (world [] []) = true /\
  usernameOnlyAt users "kim@b.com" 1 /\
  resultOf r = None /\
  exists u m,
    (userRepo.findByUsername users "kim@b.com" = Some u /\ Id u = 1
     \/ userRepo.findByUsername users "kim@b.com" = None /\ users !! 1 = Some u) /\
    ExistsAdmin (Some u) = true /\
    managers !! Id u = Some m /\
    userTable (worldOf r) =
      <[Id u := mkUser (Id u) (Role u) "kim@b.com" (Password u) (DeletedAt u) None]> users /\
    managerTable (worldOf r) =
      <[ManagerId m := mkManager (ManagerId m) "Kim" "K2" "kim@b.com"]> managers.
Proof.
  destruct (proj1 (update_writes (hasher := markerHasher) (world [] []))
                  (Build_UpdateAdminInfoInput 1 "kim@b.com" "Kim" "K2"))
    as [Hwrites Hworks].
  assert (Honly : usernameOnlyAt users "kim@b.com" 1)
    by (apply usernameFree_onlyAt, sample_username_free; discriminate).
  assert (Hnil : resultOf (UpdateAdminInfo
                             (Build_UpdateAdminInfoInput 1 "kim@b.com" "Kim" "K2")
                             (world [] [])) = None).
  { apply (Hworks admin1 manager1);
      [reflexivity | right; split; vm_compute; reflexivity | reflexivity
      | vm_compute; reflexivity | discriminate | exact Honly]. }
  cbv zeta. split; [reflexivity|]. split; [exact Honly|]. split; [exact Hnil|].
  exact (Hwrites Hnil).
Defined.

Lemma update_keeps_the_write_that_succeeded_witness :
  let r := UpdateAdminInfo (Build_UpdateAdminInfoInput 1 "kim@b.com" "Kim" "K2")
                           (world [None; None; None; None; Some 4] [false]) in
  resultOf r <> None /\
  existsb managerSaved (callsOf r) = true /\
  userTable (worldOf r) = users /\
  exists id m, managerTable (worldOf r) = <[id := m]> managers /\
               Name m = "Kim" /\ Nickname m = "K2".
Proof.
  assert (Herr : resultOf (UpdateAdminInfo
                             (Build_UpdateAdminInfoInput 1 "kim@b.com" "Kim" "K2")
                             (world [None; None; None; None; Some 4] [false])) <> None)
    by (vm_compute; discriminate).
  assert (Hsaved : existsb managerSaved
                     (callsOf (UpdateAdminInfo
                                 (Build_UpdateAdminInfoInput 1 "kim@b.com" "Kim" "K2")
                                 (world [None; None; None; None; Some 4] [false]))) = true)
    by (vm_compute; reflexivity).
  destruct (proj1 (update_keeps_the_write_that_succeeded (hasher := markerHasher)
                     (world [None; None; None; None; Some 4] [false]))
                  (Build_UpdateAdminInfoInput 1 "kim@b.com" "Kim" "K2") Herr)
    as [Hmanager _].
  destruct (Hmanager Hsaved) as [Hsame Hrow].
  cbv zeta. split; [exact Herr|]. split; [exact Hsaved|]. split; [exact Hsame | exact Hrow].
Defined.

Lemma update_refused_writes_nothing_witness :
  let r := UpdateAdminInfo (Build_UpdateAdminInfoInput 7 "c@b.com" "Cho" "C")
                           (world [] []) in
  resultOf r = Some ItemNotFound /\
  existsb isWrite (callsOf r) = false /\
  userTable (worldOf r) = users /\
  managerTable (worldOf r) = managers /\
  resultOf (ForceUpdateAdminInfoBySuperAdmin
              (Build_ForceUpdateAdminInfoInput 1 "admin@b.com" "Kim" "K" "pw2")
              (world [Some 8] [])) = Some (DbError 8).
Proof.
  assert (Hres : resultOf (UpdateAdminInfo
                             (Build_UpdateAdminInfoInput 7 "c@b.com" "Cho" "C")
                             (world [] [])) = Some ItemNotFound)
    by (vm_compute; reflexivity).
  destruct (update_refused_writes_nothing (hasher := markerHasher) (world [] []))
    as [Hinfo _].
  destruct (update_refused_writes_nothing (hasher := markerHasher) (world [Some 8] []))
    as [_ Hforce].
  destruct (Hinfo (Build_UpdateAdminInfoInput 7 "c@b.com" "Cho" "C"))
    as (Hrefused & Hsame & _).
  destruct (Hsame (Hrefused (or_intror Hres))) as [Husers Hmanagers].
  cbv zeta. split; [exact Hres|]. split; [exact (Hrefused (or_intror Hres))|].
  split; [exact Husers|]. split; [exact Hmanagers|].
  apply (Hforce (Build_ForceUpdateAdminInfoInput 1 "admin@b.com" "Kim" "K" "pw2")).
  reflexivity.
Defined.

Lemma loadManager_joins_witness :
  let joined := mkUser 1 AdminUserRole "admin@b.com" (hashPassword "pw") None
                       (Some manager1) in
  storeWorks (world [] []) = true /\
  users !! 99 = None /\
  resultOf (loadManager Active 99 (world [] [])) = (None, Some PanicNilPointer) /\
  resultOf (loadManager Active 1 (world [] [])) = (Some joined, None) /\
  exists u, users !! 1 = Some u /\
            joined = mkUser (Id u) (Role u) (Username u) (Password u) (DeletedAt u)
                            (managers !! 1).
Proof.
  pose proof (loadManager_joins Active 99 (world [] [])) as Habsent.
  pose proof (loadManager_joins Active 1 (world [] [])) as Hfound.
  cbv zeta in *.
  destruct Habsent as (_ & _ & _ & _ & _ & _ & Hpanic).
  destruct Hfound as (_ & _ & _ & _ & _ & Hjoin & _).
  assert (H99 : users !! 99 = None) by (vm_compute; reflexivity).
  assert (H1 : resultOf (loadManager Active 1 (world [] []))
               = (Some (mkUser 1 AdminUserRole "admin@b.com" (hashPassword "pw") None
                               (Some manager1)), None))
    by (vm_compute; reflexivity).
  split; [reflexivity|]. split; [exact H99|].
  split; [exact (Hpanic eq_refl eq_refl H99)|].
  split; [exact H1|].
  exact (Hjoin _ H1).
Defined.

Lemma password_change_reaches_sign_in_witness :
  let changed := UpdateAdminPassword (Build_UpdateAdminPasswordInput 1 "pw" "new")
                                     (world [] []) in
  resultOf changed = None /\
  resultOf (SignInUser (Build_SignInUserInput "admin@b.com" "new") (worldOf changed))
  = ("token:admin@b.com", None) /\
  resultOf (SignInUser (Build_SignInUserInput "admin@b.com" "pw") (worldOf changed))
  = (EmptyString, Some UserWrongPassword).
Proof.
  assert (Hrow : users !! Id admin1 = Some admin1) by (vm_compute; reflexivity).
  assert (Hp : ComparePassword admin1 "pw" = true) by (vm_compute; reflexivity).
  assert (Hid : Id admin1 <> uuid.Nil) by discriminate.
  destruct (password_change_reaches_sign_in
              (correct := markerHasher_correct)
              (Build_UpdateAdminPasswordInput 1 "pw" "new") (world [] []) admin1
              eq_refl Hrow eq_refl Hid eq_refl (sample_username_only admin1 Hrow) Hp)
    as (Hnil & Hnew & _ & Hother).
  cbv zeta. split; [exact Hnil|].
  split.
  - etransitivity; [exact Hnew | vm_compute; reflexivity].
  - apply (Hother "pw"). discriminate.
Defined.

Lemma createAdmin_answers_witness :
  let taken := handler.BoundTo (handler.Build_CreateAdminRequest
                                  "Kim" "admin@b.com" "Pw1!" "K") in
  let fresh := handler.BoundTo (handler.Build_CreateAdminRequest
                                  "Kim" "a@b.com" "Pw1!" "K") in
  resultOf (handler.createAdmin taken (world [] []))
  = handler.Respond 409 handler.ItemExist /\
  existsb isWrite (callsOf (handler.createAdmin taken (world [] []))) = false /\
  resultOf (handler.createAdmin fresh (world [None; None; None; Some 3] [true]))
  = handler.Respond 500 handler.ServerInternalErrorResponse /\
  userTable (worldOf (handler.createAdmin fresh (world [None; None; None; Some 3] [true])))
  = users /\
  resultOf (handler.createAdmin (handler.BindFailed "unexpected EOF") (world [] []))
  = handler.Respond 400 (handler.ErrorResponse "unexpected EOF").
Proof.
  pose proof (createAdmin_answers
                (handler.BoundTo (handler.Build_CreateAdminRequest
                                    "Kim" "admin@b.com" "Pw1!" "K")) (world [] []))
    as Htaken.
  pose proof (createAdmin_answers
                (handler.BoundTo (handler.Build_CreateAdminRequest
                                    "Kim" "a@b.com" "Pw1!" "K"))
                (world [None; None; None; Some 3] [true])) as Hfailed.
  pose proof (createAdmin_answers (handler.BindFailed "unexpected EOF") (world [] []))
    as Hunbound.
  cbv zeta in *.
  destruct Htaken as (_ & _ & _ & Hconflict & _).
  destruct Hfailed as (_ & Hsame & _).
  destruct Hunbound as (_ & _ & _ & _ & Hbad).
  assert (Hrow : userTable (world [] []) !! 1 = Some admin1) by (vm_compute; reflexivity).
  destruct (Hconflict _ 1 admin1 eq_refl Hrow eq_refl) as [Hreply Hnowrite].
  split; [exact Hreply|]. split; [exact Hnowrite|].
  split; [vm_compute; reflexivity|].
  split; [apply Hsame; vm_compute; discriminate|].
  apply (Hbad "unexpected EOF" eq_refl).
Defined.

Lemma createCustomer_answers_witness :
  let fresh := handler.Build_CreateCustomerRequest "ljs" "example@example.com"
                                                   "01012345678" in
  let taken := handler.Build_CreateCustomerRequest "cho" "c@b.com" "01012345678" in
  storeWorks (world [] []) = true /\
  usernameFree users "example@example.com" /\
  users !! 7 = Some customer7 /\
  (exists id,
     resultOf (handler.createCustomer (handler.BoundTo fresh) (world [] []))
     = handler.Respond 201 (handler.CreatedCustomerResp id) /\
     id <> uuid.Nil) /\
  resultOf (handler.createCustomer (handler.BoundTo taken) (world [] []))
  = handler.Respond 500 handler.ServerInternalErrorResponse /\
  userTable (worldOf (handler.createCustomer (handler.BoundTo taken) (world [] [])))
  = users /\
  resultOf (handler.createCustomer (handler.BoundTo fresh) (world [None; Some 2] []))
  = handler.Respond 500 handler.ServerInternalErrorResponse.
Proof.
  pose proof (createCustomer_answers
                (handler.BoundTo (handler.Build_CreateCustomerRequest
                                    "ljs" "example@example.com" "01012345678"))
                (world [] [])) as Hstored.
  pose proof (createCustomer_answers
                (handler.BoundTo (handler.Build_CreateCustomerRequest
                                    "cho" "c@b.com" "01012345678"))
                (world [] [])) as Htaken.
  pose proof (createCustomer_answers
                (handler.BoundTo (handler.Build_CreateCustomerRequest
                                    "ljs" "example@example.com" "01012345678"))
                (world [None; Some 2] [])) as Hfailed.
  cbv zeta in *.
  destruct Hstored as (_ & _ & Hstored & _).
  destruct Htaken as (_ & Hsame & Htaken & _).
  destruct Hfailed as (_ & _ & Hfailed & _).
  destruct (Hstored _ eq_refl) as (Hbody & _ & Hcreated & _).
  destruct (Htaken _ eq_refl) as (_ & _ & _ & Hrefused).
  destruct (Hfailed _ eq_refl) as (_ & Herror & _).
  assert (Hfree : usernameFree users "example@example.com")
    by (apply sample_username_free; discriminate).
  assert (Hrow : users !! 7 = Some customer7) by (vm_compute; reflexivity).
  assert (H500 : resultOf (handler.createCustomer
                             (handler.BoundTo (handler.Build_CreateCustomerRequest
                                                 "cho" "c@b.com" "01012345678"))
                             (world [] []))
                 = handler.Respond 500 handler.ServerInternalErrorResponse).
  { apply (Hrefused eq_refl 7 customer7 Hrow eq_refl). vm_compute. discriminate. }
  split; [reflexivity|]. split; [exact Hfree|]. split; [exact Hrow|].
  split.
  { pose proof (Hcreated eq_refl Hfree) as Hstatus.
    destruct (resultOf (handler.createCustomer _ _)) as [status body|] eqn:Hreply;
      [|discriminate Hstatus].
    injection Hstatus as ->.
    destruct (Hbody body eq_refl) as (id & -> & Hid & _).
    exists id. split; [reflexivity | exact Hid]. }
  split; [exact H500|].
  split; [apply Hsame; rewrite H500; cbn; discriminate|].
  apply Herror. vm_compute. discriminate.
Defined.


Lemma delete_handlers_never_confirm_witness :
  let removed := handler.deleteCustomerUser
                   (handler.BoundTo (handler.Build_DeleteCustomerRequest 7)) (world [] []) in
  existsb userSaved (callsOf removed) = true /\
  resultOf removed = handler.Panic /\
  (IsDeleted <$> userTable (worldOf removed) !! 7) = Some true /\
  resultOf (handler.deleteAdminUser
              (handler.BoundTo (handler.Build_DeleteAdminRequest 1)) (world [] []))
  = handler.Panic /\
  resultOf (handler.deleteAdminUser
              (handler.BoundTo (handler.Build_DeleteAdminRequest 7)) (world [] []))
  = handler.Respond 404 (handler.ErrorResponse "item not found").
Proof.
  destruct (delete_handlers_never_confirm (texts := sampleTexts) (world [] []))
    as [Hcustomer Hadmin].
  pose proof (Hcustomer (handler.BoundTo (handler.Build_DeleteCustomerRequest 7))) as H7.
  pose proof (Hadmin (handler.BoundTo (handler.Build_DeleteAdminRequest 1))) as H1.
  cbv zeta in *.
  destruct H7 as (_ & Hpanic & _).
  destruct H1 as (_ & Hpanic' & _).
  assert (Hsaved : existsb userSaved
                     (callsOf (handler.deleteCustomerUser
                                 (handler.BoundTo (handler.Build_DeleteCustomerRequest 7))
                                 (world [] []))) = true) by (vm_compute; reflexivity).
  split; [exact Hsaved|]. split; [exact (proj2 Hpanic Hsaved)|].
  split; [vm_compute; reflexivity|].
  split; [apply (proj2 Hpanic'); vm_compute; reflexivity|].
  vm_compute. reflexivity.
Defined.
